(** * Tabular ingestion and type inference of the upload components

    A shallow embedding of the two upload components of the front end:

    - [processFile] of [src/components/FileUploadZone.tsx], which returns an
      [UploadedFile] record (rows, headers, status, error message);
    - [parseFile] and [analyzeDataTypes] of the enterprise upload zone
      (the component exported as [EnterpriseUploadZone]), which resolve to a
      pair of rows and metadata (columns, row count, detected types) or
      reject with an error.

    JavaScript values are a tagged union, numbers are IEEE 754 doubles
    (the kernel's primitive floats), exceptions and promise rejections are an
    error monad, and the npm and browser collaborators the components call
    (Papa Parse, SheetJS, [JSON.parse], [Date.parse], number printing) are the
    fields of a [Platform] record, the interface of what the components
    import.  Strings are sequences of code units below 256 (Latin-1 text).
    An object is the list of its own properties in enumeration order: the
    array indices first, in ascending order, then the other names in the
    order of their creation; an assignment to the name [__proto__] of an
    object that has no such own property reaches the accessor of
    [Object.prototype] and creates none.  A callback prop or a toast may
    return or throw, and the handlers are modelled with both outcomes.  The
    specification calls [analyzeDataTypes] inferColumnTypes and the two
    parsing functions parse. *)

From Stdlib Require Import Floats.PrimFloat Strings.Ascii Strings.String.
From stdpp Require Import base option list strings pretty gmap.

Local Open Scope string_scope.
Set Warnings "-register-all".
Set Default Proof Using "Type".

(** ** Exceptions and rejections *)

Inductive Result (A : Type) : Type :=
| Ok (a : A)
| Throw (msg : string).
Arguments Ok {A} a.
Arguments Throw {A} msg.

Global Instance Result_ret : MRet Result := fun _ a => Ok a.
Global Instance Result_bind : MBind Result := fun _ _ k r =>
  match r with
  | Ok a => k a
  | Throw msg => Throw msg
  end.

(** [try { body } catch (error) { reject(new Error(msg)) }] *)
Definition catch_as {A : Type} (body : Result A) (msg : string) : Result A :=
  match body with
  | Ok a => Ok a
  | Throw _ => Throw msg
  end.

(** ** JavaScript values *)

Inductive JsValue : Type :=
| JUndefined
| JNull
| JBool (b : bool)
| JNum (n : float)
| JStr (s : string)
| JArr (elems : list JsValue)
| JObj (props : list (string * JsValue)).

(** A row object: its own enumerable properties in enumeration order. *)
Abbreviation Obj := (list (string * JsValue)).

Inductive JsType : Type :=
| ty_undefined | ty_object | ty_boolean | ty_number | ty_string.

Definition typeof (v : JsValue) : JsType :=
  match v with
  | JUndefined => ty_undefined
  | JNull => ty_object
  | JBool _ => ty_boolean
  | JNum _ => ty_number
  | JStr _ => ty_string
  | JArr _ => ty_object
  | JObj _ => ty_object
  end.

Definition Array_isArray (v : JsValue) : bool :=
  match v with JArr _ => true | _ => false end.

(** ToBoolean: [undefined], [null], [false], [+0], [-0], [NaN] and the empty
    string are falsy, everything else is truthy. *)
Definition truthy (v : JsValue) : bool :=
  match v with
  | JUndefined | JNull => false
  | JBool b => b
  | JNum n => negb (PrimFloat.is_zero n || PrimFloat.is_nan n)
  | JStr s => negb (String.eqb s "")
  | JArr _ | JObj _ => true
  end.

(** [a || b] *)
Definition js_or (a b : JsValue) : JsValue := if truthy a then a else b.

(** [v !== ''] *)
Definition neq_empty_string (v : JsValue) : bool :=
  match v with
  | JStr s => negb (String.eqb s "")
  | _ => true
  end.

Definition neq_null (v : JsValue) : bool :=
  match v with JNull => false | _ => true end.

Definition neq_undefined (v : JsValue) : bool :=
  match v with JUndefined => false | _ => true end.

(** The message of the TypeError that [Object.keys] and [Object.entries]
    throw on [null] and [undefined]. *)
Definition TypeError_not_object : string :=
  "Cannot convert undefined or null to object".

Definition chars (s : string) : list JsValue :=
  (fun c => JStr (String c EmptyString)) <$> list_ascii_of_string s.

Definition indexed (l : list JsValue) : Obj :=
  imap (fun i v => (pretty i, v)) l.

(** [Object.entries(v)]: ToObject, then the own enumerable string-keyed
    properties. *)
Definition Object_entries (v : JsValue) : Result Obj :=
  match v with
  | JUndefined | JNull => Throw TypeError_not_object
  | JBool _ | JNum _ => Ok []
  | JStr s => Ok (indexed (chars s))
  | JArr l => Ok (indexed l)
  | JObj o => Ok o
  end.

Definition Object_keys (v : JsValue) : Result (list string) :=
  o ← Object_entries v; Ok (o.*1).

(** [Object.values] of a row object. *)
Definition Object_values (o : Obj) : list JsValue := o.*2.

(** [s.includes(c)] for a one-character needle. *)
Definition String_includes (s : string) (c : ascii) : bool :=
  existsb (Ascii.eqb c) (list_ascii_of_string s).

(** ** The collaborators *)

Record PapaConfig : Type := {
  header : bool;
  skipEmptyLines : bool;
  dynamicTyping : bool
}.

Record PapaError : Type := {
  err_type : string;
  err_code : string;
  message : string
}.

(** [results.data], [results.errors] and [results.meta.fields]; with
    [header: true] every row of [results.data] is an object. *)
Record PapaResult : Type := {
  results_data : list Obj;
  results_errors : list PapaError;
  meta_fields : option (list string)
}.

Record WorkBook (WorkSheet : Type) : Type := {
  SheetNames : list string;
  Sheets : list (string * WorkSheet)
}.
Arguments SheetNames {WorkSheet} _.
Arguments Sheets {WorkSheet} _.

Record Platform : Type := {
  (** [Papa.parse(text, config)] *)
  Papa_parse : PapaConfig -> string -> PapaResult;
  WorkSheet : Type;
  (** [XLSX.read(data, opts)], which throws on an undecodable workbook *)
  XLSX_read : string -> Result (WorkBook WorkSheet);
  (** [XLSX.utils.sheet_to_json(ws, { header: 1, defval: '' })] *)
  sheet_to_json_arrays : option WorkSheet -> list (list JsValue);
  (** [XLSX.utils.sheet_to_json(ws)] *)
  sheet_to_json : option WorkSheet -> list Obj;
  (** [JSON.parse(text)], which throws a SyntaxError on malformed text *)
  JSON_parse : string -> Result JsValue;
  (** [isNaN(Date.parse(s))] *)
  Date_parse_isNaN : string -> bool;
  (** Number::toString *)
  Number_toString : float -> string
}.

(** ** Type inference: [analyzeDataTypes] *)

Inductive TypeTag : Type :=
| TNumber | TBoolean | TEmail | TDate | TString.

Definition tagName (t : TypeTag) : string :=
  match t with
  | TNumber => "number"
  | TBoolean => "boolean"
  | TEmail => "email"
  | TDate => "date"
  | TString => "string"
  end.

Section Inference.
Variable P : Platform.

(** The body of the [forEach] callback: the tag stored at [types[key]]. *)
Definition inferType (value : JsValue) : TypeTag :=
  match value with
  | JNum _ => TNumber                            (* typeof value === 'number' *)
  | JBool _ => TBoolean                          (* typeof value === 'boolean' *)
  | JStr s =>                                    (* typeof value === 'string' *)
      if String_includes s "@" then TEmail
      else if negb (Date_parse_isNaN P s) then TDate
      else TString
  | _ => TString
  end.

(** The [forEach] callback on one entry: [types[key] = ...] on the plain
    object [types], which starts as [{}].  The tag is a string: assigned to
    the name [__proto__] it reaches the accessor of [Object.prototype],
    which ignores a primitive, and no property is stored. *)
Definition assign_type (types : gmap string TypeTag) (entry : string * JsValue)
  : gmap string TypeTag :=
  if String.eqb entry.1 "__proto__" then types
  else <[entry.1 := inferType entry.2]> types.

Definition analyzeDataTypes (data : list JsValue)
  : Result (gmap string TypeTag) :=
  match data with
  | [] => Ok ∅                                    (* data.length === 0 *)
  | sample :: _ =>
      entries ← Object_entries sample;
      Ok (foldl assign_type ∅ entries)
  end.
End Inference.

(** ** String operations of the components *)

(** [toLowerCase] on a code unit below 256: the letters A-Z and the accented
    capitals U+00C0-U+00DE (U+00D7, the multiplication sign, apart). *)
Definition lower_unit (c : ascii) : ascii :=
  let n := nat_of_ascii c in
  if (Nat.leb 65 n && Nat.leb n 90)
     || (Nat.leb 192 n && Nat.leb n 222 && negb (Nat.eqb n 215))
  then ascii_of_nat (n + 32) else c.

(** [s.toLowerCase()] on Latin-1 text, which is what a [string] holds
    here: every code unit is lowered by itself.  The rule of
    [String.prototype.toLowerCase] that looks at the neighbours of a
    letter, the one of the final sigma, bears on letters outside Latin-1;
    nothing is stated below about names that hold such letters. *)
Definition toLowerCase (s : string) : string :=
  string_of_list_ascii (lower_unit <$> list_ascii_of_string s).

(** [s.split(sep)] for a one-character separator: never the empty array. *)
Fixpoint String_split (sep : ascii) (s : string) : list string :=
  match s with
  | EmptyString => [EmptyString]
  | String c rest =>
      if Ascii.eqb c sep then EmptyString :: String_split sep rest
      else match String_split sep rest with
           | seg :: segs => String c seg :: segs
           | [] => [String c EmptyString]
           end
  end.

(** [segments.pop()] read as a value: the last element, [undefined] on the
    empty array. *)
Definition Array_pop (segments : list string) : option string := last segments.

(** WhiteSpace and LineTerminator code units below 256. *)
Definition isWhiteSpace (c : ascii) : bool :=
  let n := nat_of_ascii c in
  (Nat.leb 9 n && Nat.leb n 13) || Nat.eqb n 32 || Nat.eqb n 160.

Fixpoint dropSpaces (l : list ascii) : list ascii :=
  match l with
  | c :: rest => if isWhiteSpace c then dropSpaces rest else l
  | [] => []
  end.

(** [s.trim()] *)
Definition String_trim (s : string) : string :=
  string_of_list_ascii
    (reverse (dropSpaces (reverse (dropSpaces (list_ascii_of_string s))))).

(** [extension === 'csv'] *)
Definition ext_is (extension : option string) (lit : string) : bool :=
  match extension with
  | Some e => String.eqb e lit
  | None => false
  end.

(** [`${extension}`] *)
Definition ext_text (extension : option string) : string :=
  default "undefined" extension.

(** The own property [key] of an object, if it has one. *)
Fixpoint obj_get (key : string) (o : Obj) : option JsValue :=
  match o with
  | [] => None
  | (k, w) :: rest => if String.eqb k key then Some w else obj_get key rest
  end.

Definition digit_of (c : ascii) : option N :=
  let n := nat_of_ascii c in
  if Nat.leb 48 n && Nat.leb n 57 then Some (N.of_nat (Nat.sub n 48)) else None.

Fixpoint numeral (acc : N) (cs : list ascii) : option N :=
  match cs with
  | [] => Some acc
  | c :: rest =>
      match digit_of c with
      | Some d => numeral (acc * 10 + d)%N rest
      | None => None
      end
  end.

(** The array index that a property name denotes, if it denotes one: a
    decimal numeral without a leading zero whose value is below 2^32 - 1. *)
Definition array_index (key : string) : option N :=
  match list_ascii_of_string key with
  | [] => None
  | c :: rest =>
      if Ascii.eqb c "0" && Nat.ltb 0 (length rest) then None
      else if Nat.ltb 10 (length (c :: rest)) then None
      else match numeral 0 (c :: rest) with
           | Some n => if (n <? 4294967295)%N then Some n else None
           | None => None
           end
  end.

(** The write to a property the object has: it keeps its place. *)
Fixpoint replace_own (key : string) (v : JsValue) (o : Obj) : Obj :=
  match o with
  | [] => []
  | (k, w) :: rest =>
      if String.eqb k key then (k, v) :: rest
      else (k, w) :: replace_own key v rest
  end.

(** A new property whose name is the array index [n]: it is enumerated
    after the smaller indices and before every other property. *)
Fixpoint add_index (n : N) (key : string) (v : JsValue) (o : Obj) : Obj :=
  match o with
  | [] => [(key, v)]
  | (k, w) :: rest =>
      match array_index k with
      | Some m =>
          if (m <? n)%N then (k, w) :: add_index n key v rest
          else (key, v) :: (k, w) :: rest
      | None => (key, v) :: (k, w) :: rest
      end
  end.

(** [obj[key] = v] on a plain object, one whose prototype is
    [Object.prototype] when it is created: an own property is overwritten
    in its place; the name [__proto__], when it is no own property, is the
    accessor of the prototype and the object gets no property; any other
    new name becomes an own property, enumerated with the array indices
    when it is one and last otherwise. *)
Definition obj_set (key : string) (v : JsValue) (o : Obj) : Obj :=
  match obj_get key o with
  | Some _ => replace_own key v o
  | None =>
      if String.eqb key "__proto__" then o
      else match array_index key with
           | Some n => add_index n key v o
           | None => (o ++ [(key, v)])%list
           end
  end.

(** [sheets[key]] *)
Fixpoint sheet_get {W : Type} (key : string) (sheets : list (string * W))
  : option W :=
  match sheets with
  | [] => None
  | (k, w) :: rest => if String.eqb k key then Some w else sheet_get key rest
  end.

(** The property key that an index expression [o[k]] reads: ToString of
    [k], which is "undefined" when [k] is [undefined]. *)
Definition property_key (k : option string) : string := default "undefined" k.

(** [row[index]] *)
Definition at_index (row : list JsValue) (index : nat) : JsValue :=
  default JUndefined (row !! index).

(** ** Files and results *)

Record File : Type := {
  name : string;
  size : N;
  (** what reading the file gives: its contents, or the read error *)
  contents : Result string
}.

Inductive Status : Type := status_success | status_error.

Record UploadedFile : Type := {
  file : File;
  data : list JsValue;
  headers : list string;
  status : Status;
  error : option string
}.

Record Metadata : Type := {
  filename : string;
  md_size : N;
  md_type : option string;
  uploadedAt : string;
  sheetName : option string;
  columns : list string;
  rows : nat;
  detectedTypes : gmap string TypeTag
}.

Section Components.
Variable P : Platform.

(** [String(v)] *)
Fixpoint String_of (v : JsValue) : string :=
  match v with
  | JUndefined => "undefined"
  | JNull => "null"
  | JBool b => if b then "true" else "false"
  | JNum n => Number_toString P n
  | JStr s => s
  | JArr l =>
      String.concat ","
        (List.map (fun e => match e with
                            | JUndefined | JNull => ""
                            | _ => String_of e
                            end) l)
  | JObj _ => "[object Object]"
  end.

(** *** [processFile] of FileUploadZone.tsx *)

(** [jsonData[0].map(h => String(h).trim()).filter(Boolean)] *)
Definition xlsx_headers (first : list JsValue) : list string :=
  List.filter (fun h => negb (String.eqb h ""))
              (List.map (fun h => String_trim (String_of h)) first).

(** The callback of [jsonData.slice(1).map]: the row object of one sheet
    row. *)
Definition xlsx_row (headers : list string) (row : list JsValue) : Obj :=
  foldl (fun obj ih => obj_set ih.2 (js_or (at_index row ih.1) (JStr "")) obj)
        [] (imap pair headers).

(** [row => Object.values(row).some(v => v !== '')] *)
Definition xlsx_keep (row : Obj) : bool :=
  existsb neq_empty_string (Object_values row).

Definition xlsx_data (headers : list string) (rest : list (list JsValue))
  : list Obj :=
  List.filter xlsx_keep (List.map (xlsx_row headers) rest).

(** [workbook.Sheets[workbook.SheetNames[0]]] *)
Definition first_sheet (workbook : WorkBook (WorkSheet P))
  : option (WorkSheet P) :=
  sheet_get (property_key (head (SheetNames workbook))) (Sheets workbook).

Definition processFile_csv (file : File) : Result (list JsValue * list string) :=
  text ← contents file;
  let result :=
    Papa_parse P {| header := true; skipEmptyLines := true;
                    dynamicTyping := true |} text in
  match results_errors result with
  | e :: _ => Throw ("CSV parsing error: " +:+ message e)
  | [] => Ok (JObj <$> results_data result, default [] (meta_fields result))
  end.

Definition processFile_xlsx (file : File) : Result (list JsValue * list string) :=
  arrayBuffer ← contents file;
  workbook ← XLSX_read P arrayBuffer;
  let jsonData := sheet_to_json_arrays P (first_sheet workbook) in
  match jsonData with
  | [] => Throw "Excel file is empty"
  | first :: rest =>
      let headers := xlsx_headers first in
      Ok (JObj <$> xlsx_data headers rest, headers)
  end.

Definition processFile_json (file : File) : Result (list JsValue * list string) :=
  text ← contents file;
  jsonData ← JSON_parse P text;
  match jsonData with
  | JArr data =>                                  (* Array.isArray(jsonData) *)
      match data with
      | first :: _ =>
          match typeof first with
          | ty_object => headers ← Object_keys first; Ok (data, headers)
          | _ => Ok (data, [])
          end
      | [] => Ok (data, [])
      end
  | _ =>
      match typeof jsonData with
      | ty_object => headers ← Object_keys jsonData; Ok ([jsonData], headers)
      | _ => Throw "JSON must be an array or object"
      end
  end.

(** [file.name.toLowerCase().split('.').pop()] *)
Definition lower_extension (f : File) : option string :=
  Array_pop (String_split "." (toLowerCase (name f))).

(** The dispatch on the extension: what [data] and [headers] hold when the
    chain of branches is left. *)
Definition processFile_parse (f : File) : Result (list JsValue * list string) :=
  let extension := lower_extension f in
  if ext_is extension "csv" then processFile_csv f
  else if ext_is extension "xlsx" || ext_is extension "xls"
       then processFile_xlsx f
  else if ext_is extension "json" then processFile_json f
  else Throw ("Unsupported file type: " +:+ ext_text extension).

(** The two checks that follow the dispatch. *)
Definition processFile_checks (parsed : list JsValue * list string)
  : Result (list JsValue * list string) :=
  match parsed.1 with
  | [] => Throw "File contains no data"            (* data.length === 0 *)
  | _ :: _ =>
      match parsed.2 with
      | [] => Throw "Could not detect column headers"
      | _ :: _ => Ok parsed
      end
  end.

(** The body of the [try] block. *)
Definition processFile_try (f : File) : Result (list JsValue * list string) :=
  parsed ← processFile_parse f;
  processFile_checks parsed.

Definition processFile (f : File) : UploadedFile :=
  match processFile_try f with
  | Ok parsed =>
      {| file := f; data := parsed.1; headers := parsed.2;
         status := status_success; error := None |}
  | Throw msg =>
      {| file := f; data := []; headers := [];
         status := status_error; error := Some msg |}
  end.

(** *** [parseFile] of the enterprise upload zone *)

(** [row => Object.values(row).some(val => val !== '' && val !== null &&
    val !== undefined)] *)
Definition clean_keep (row : Obj) : bool :=
  existsb (fun val => neq_empty_string val && neq_null val && neq_undefined val)
          (Object_values row).

(** [Object.keys(rows[0] || {})] *)
Definition columns_of (rows : list JsValue) : Result (list string) :=
  Object_keys (js_or (default JUndefined (head rows)) (JObj [])).

Section parseFile.
(** [new Date().toISOString()], the one reading of ambient state. *)
Variable now : string.
Variable f : File.

Definition extension_of : option string :=
  toLowerCase <$> Array_pop (String_split "." (name f)).

Definition metadata_of (sheet : option string) (cols : list string)
           (n : nat) (types : gmap string TypeTag) : Metadata :=
  {| filename := name f; md_size := size f; md_type := extension_of;
     uploadedAt := now; sheetName := sheet; columns := cols; rows := n;
     detectedTypes := types |}.

Definition resolve_with (sheet : option string) (rows : list JsValue)
  : Result (list JsValue * Metadata) :=
  cols ← columns_of rows;
  types ← analyzeDataTypes P rows;
  Ok (rows, metadata_of sheet cols (length rows) types).

Definition parseFile_csv : Result (list JsValue * Metadata) :=
  text ← contents f;                       (* error: (error) => reject(error) *)
  let results :=
    Papa_parse P {| header := true; skipEmptyLines := true;
                    dynamicTyping := false |} text in
  match results_errors results with
  | e :: _ => Throw ("CSV parsing error: " +:+ message e)
  | [] =>
      let cleanData := List.filter clean_keep (results_data results) in
      resolve_with None (JObj <$> cleanData)
  end.

Definition parseFile_xlsx : Result (list JsValue * Metadata) :=
  match contents f with
  | Throw _ => Throw "Failed to read Excel file"          (* reader.onerror *)
  | Ok bytes =>
      workbook ← XLSX_read P bytes;
      let jsonData := sheet_to_json P (first_sheet workbook) in
      let cleanData := List.filter clean_keep jsonData in
      resolve_with (head (SheetNames workbook)) (JObj <$> cleanData)
  end.

Definition parseFile_json : Result (list JsValue * Metadata) :=
  match contents f with
  | Throw _ => Throw "Failed to read JSON file"           (* reader.onerror *)
  | Ok text =>
      catch_as
        (jsonData ← JSON_parse P text;
         let dataArray :=
           match jsonData with
           | JArr elems => elems              (* Array.isArray(jsonData) *)
           | _ => [jsonData]
           end in
         resolve_with None dataArray)
        "Invalid JSON format"
  end.

Definition parseFile : Result (list JsValue * Metadata) :=
  if ext_is extension_of "csv" then parseFile_csv
  else if ext_is extension_of "xlsx" || ext_is extension_of "xls"
       then parseFile_xlsx
  else if ext_is extension_of "json" then parseFile_json
  else Throw "Unsupported file format. Please use CSV, Excel, or JSON files.".
End parseFile.
End Components.

(** ** A reference model of Papa Parse

    Papa Parse is an npm dependency of the components.  [PapaModel.parse]
    follows what the library does with [header: true] on the texts the
    examples below use: no quote character, LF line ends, the comma as the
    only candidate delimiter, distinct header names, and, under
    [dynamicTyping], cells that are empty, a boolean word, an unsigned
    integer of at most 15 digits, or text that is not a number or a date.
    Outside these texts it is not a model of the library.  The general
    theorems quantify over every [Platform]; the model instantiates them at
    concrete texts. *)
Module PapaModel.

Definition LF : ascii := ascii_of_nat 10.

(** The fast path of the parser: [input.split(newline)], then
    [row.split(delim)] on each line. *)
Definition raw_rows (delim : ascii) (input : string) : list (list string) :=
  String_split delim <$> String_split LF input.

(** [testEmptyLine] when [skipEmptyLines] is [true]: one empty field. *)
Definition testEmptyLine (s : list string) : bool :=
  match s with
  | [c] => String.eqb c ""
  | _ => false
  end.

(** [guessDelimiter] for the comma over a preview of ten rows: it is taken
    when the average field count of the rows that are not empty exceeds
    1.99. *)
Definition guess_comma (skip : bool) (input : string) : bool :=
  let preview := take 10 (raw_rows "," input) in
  let counted :=
    List.filter (fun r => negb (skip && testEmptyLine r)) preview in
  let total := foldr (fun r acc => length r + acc) 0 counted in
  Nat.ltb 0 (length counted) && Nat.ltb (199 * length counted) (100 * total).

Definition delimiter_error : PapaError :=
  {| err_type := "Delimiter"; err_code := "UndetectableDelimiter";
     message :=
       "Unable to auto-detect delimiting character; defaulted to ','" |}.

Definition is_digit (c : ascii) : bool :=
  let n := nat_of_ascii c in Nat.leb 48 n && Nat.leb n 57.

Definition digit_value (c : ascii) : float :=
  match Nat.sub (nat_of_ascii c) 48 with
  | 0 => 0%float | 1 => 1%float | 2 => 2%float | 3 => 3%float
  | 4 => 4%float | 5 => 5%float | 6 => 6%float | 7 => 7%float
  | 8 => 8%float | _ => 9%float
  end.

(** [parseFloat] on an unsigned integer literal. *)
Definition parse_digits (s : string) : float :=
  foldl (fun acc c => PrimFloat.add (PrimFloat.mul acc 10%float) (digit_value c))
        0%float (list_ascii_of_string s).

(** [parseDynamic] *)
Definition parseDynamic (dynamic : bool) (value : string) : JsValue :=
  if negb dynamic then JStr value
  else if String.eqb value "true" || String.eqb value "TRUE" then JBool true
  else if String.eqb value "false" || String.eqb value "FALSE" then JBool false
  else if forallb is_digit (list_ascii_of_string value)
          && Nat.ltb 0 (String.length value)
          && Nat.leb (String.length value) 15
       then JNum (parse_digits value)
  else if String.eqb value "" then JNull
  else JStr value.

(** [row['__parsed_extra'].push(value)] *)
Definition push_extra (value : JsValue) (row : Obj) : Obj :=
  match obj_get "__parsed_extra" row with
  | Some (JArr extra) => obj_set "__parsed_extra" (JArr (extra ++ [value])) row
  | _ => obj_set "__parsed_extra" (JArr [value]) row
  end.

(** [processRow]: the row object of one line under the header fields. *)
Definition processRow (dynamic : bool) (fields : list string)
           (rowSource : list string) : Obj :=
  foldl (fun row jv =>
           match fields !! jv.1 with
           | Some field => obj_set field (parseDynamic dynamic jv.2) row
           | None => push_extra (parseDynamic dynamic jv.2) row
           end)
        [] (imap pair rowSource).

(** The FieldMismatch error of one line, if any. *)
Definition mismatch (fields : list string) (rowSource : list string)
  : list PapaError :=
  let expected := pretty (length fields) in
  let parsed := pretty (length rowSource) in
  if Nat.ltb (length fields) (length rowSource) then
    [ {| err_type := "FieldMismatch"; err_code := "TooManyFields";
         message := "Too many fields: expected " +:+ expected
                    +:+ " fields but parsed " +:+ parsed |} ]
  else if Nat.ltb (length rowSource) (length fields) then
    [ {| err_type := "FieldMismatch"; err_code := "TooFewFields";
         message := "Too few fields: expected " +:+ expected
                    +:+ " fields but parsed " +:+ parsed |} ]
  else [].

(** [Papa.parse(input, config)] with [header: true]. *)
Definition parse (config : PapaConfig) (input : string) : PapaResult :=
  let delimiterError := negb (guess_comma (skipEmptyLines config) input) in
  let parsed := raw_rows "," input in
  let kept :=
    if skipEmptyLines config
    then List.filter (fun r => negb (testEmptyLine r)) parsed
    else parsed in
  let fields := default [] (head kept) in        (* fillHeaderFields *)
  let body := tail kept in
  {| results_data := processRow (dynamicTyping config) fields <$> body;
     results_errors :=
       (if delimiterError then [delimiter_error] else [])
       ++ concat (mismatch fields <$> body);
     meta_fields := Some fields |}.

End PapaModel.

(** ** Collaborators for the concrete examples

    The examples below run the components on concrete files.  The CSV
    parser is [PapaModel.parse]; the decoded workbook, the JSON decoder and
    the printing of numbers are given with each example, as the values the
    libraries return on that file.  [Date.parse] is that of a strict
    engine, which accepts the calendar dates written YYYY-MM-DD, a form of
    the ECMAScript date-time string format, and nothing else; what it does
    with other strings is left to the engine by the language, and the
    engines differ (some read a bare number as a date).  The examples
    state detected types only for strings on which the engines agree: a
    date written YYYY-MM-DD, a word without digits, a string with '@'. *)
Module Reference.

(** A decoded sheet, by the two views [sheet_to_json] is asked for. *)
Record Sheet : Type := {
  as_arrays : list (list JsValue);
  as_objects : list Obj
}.

Definition two_digits (a b : ascii) : nat :=
  10 * Nat.sub (nat_of_ascii a) 48 + Nat.sub (nat_of_ascii b) 48.

(** YYYY-MM-DD with a month in 01..12 and a day in 01..31: the strings
    the strict engine takes for dates. *)
Definition date_only (s : string) : bool :=
  match list_ascii_of_string s with
  | [y1; y2; y3; y4; h1; m1; m2; h2; d1; d2] =>
      forallb PapaModel.is_digit [y1; y2; y3; y4; m1; m2; d1; d2]
      && Ascii.eqb h1 "-" && Ascii.eqb h2 "-"
      && Nat.leb 1 (two_digits m1 m2) && Nat.leb (two_digits m1 m2) 12
      && Nat.leb 1 (two_digits d1 d2) && Nat.leb (two_digits d1 d2) 31
  | _ => false
  end.

Definition platform (read : string -> Result (WorkBook Sheet))
           (json : string -> Result JsValue) (print : float -> string)
  : Platform :=
  {| Papa_parse := PapaModel.parse;
     WorkSheet := Sheet;
     XLSX_read := read;
     sheet_to_json_arrays := fun ws => default [] (as_arrays <$> ws);
     sheet_to_json := fun ws => default [] (as_objects <$> ws);
     JSON_parse := json;
     Date_parse_isNaN := fun s => negb (date_only s);
     Number_toString := print |}.

Definition no_workbook : string -> Result (WorkBook Sheet) :=
  fun _ => Throw "File is not a workbook".
Definition no_json : string -> Result JsValue :=
  fun _ => Throw "Unexpected token".
Definition no_print : float -> string := fun _ => "NaN".

(** The platform of the CSV examples. *)
Definition csv_platform : Platform := platform no_workbook no_json no_print.

Definition text_file (n : string) (text : string) : File :=
  {| name := n; size := N.of_nat (String.length text); contents := Ok text |}.

End Reference.

(** ** Specification-side definitions and example data *)

(** The precedence of the type tags, rule by rule, as the specification
    words it. *)
Inductive spec_precedence (P : Platform) : JsValue -> TypeTag -> Prop :=
| rule_number n : spec_precedence P (JNum n) TNumber
| rule_boolean b : spec_precedence P (JBool b) TBoolean
| rule_email s :
    "@"%char ∈ list_ascii_of_string s ->
    spec_precedence P (JStr s) TEmail
| rule_date s :
    "@"%char ∉ list_ascii_of_string s ->
    Date_parse_isNaN P s = false ->
    spec_precedence P (JStr s) TDate
| rule_string s :
    "@"%char ∉ list_ascii_of_string s ->
    Date_parse_isNaN P s = true ->
    spec_precedence P (JStr s) TString
| rule_other v :
    typeof v = ty_object \/ typeof v = ty_undefined ->
    spec_precedence P v TString.

Definition example_row : Obj :=
  [("age", JNum 30%float); ("active", JBool true); ("email", JStr "a@b.com");
   ("joined", JStr "2024-01-01"); ("note", JStr "hello")].

(** The row that [JSON.parse] builds from the text {"__proto__": 1}: the
    name is an own property of it. *)
Definition proto_row : Obj := [("__proto__", JNum 1%float)].

Definition example_types : gmap string TypeTag :=
  {[ "age" := TNumber; "active" := TBoolean; "email" := TEmail;
     "joined" := TDate; "note" := TString ]}.

(** The two object literals that [processFile] returns. *)
Definition succeeded (f : File) (rows : list JsValue) (hdrs : list string)
  : UploadedFile :=
  {| file := f; data := rows; headers := hdrs;
     status := status_success; error := None |}.

Definition failed (f : File) (msg : string) : UploadedFile :=
  {| file := f; data := []; headers := [];
     status := status_error; error := Some msg |}.

(** A blank row, as the specification words it: every field is empty,
    null or undefined. *)
Definition blank_row (row : Obj) : Prop :=
  forall v, v ∈ Object_values row -> v = JStr "" \/ v = JNull \/ v = JUndefined.

(** [kept] is [l] without its elements that are [dropped], the others in
    the order of [l], each as often as in [l]. *)
Inductive without {A : Type} (dropped : A -> Prop) : list A -> list A -> Prop :=
| without_nil : without dropped [] []
| without_drop x l kept :
    dropped x -> without dropped l kept -> without dropped (x :: l) kept
| without_keep x l kept :
    ~ dropped x -> without dropped l kept -> without dropped (x :: l) (x :: kept).

(** The configurations the two components pass to Papa Parse. *)
Definition processFile_config : PapaConfig :=
  {| header := true; skipEmptyLines := true; dynamicTyping := true |}.
Definition parseFile_config : PapaConfig :=
  {| header := true; skipEmptyLines := true; dynamicTyping := false |}.

(** A reading of the clock for the concrete runs of [parseFile]. *)
Definition now0 : string := "2024-01-01T00:00:00.000Z".

Definition lines (l : list string) : string :=
  String.concat (String PapaModel.LF EmptyString) l.

(** The CSV text of the specification's filtering example: its blank line
    has three empty fields under a header of two. *)
Definition spec_csv_text : string := lines ["a,b"; "1,2"; ",,"; "3,4"].
(** The same table with a blank line of two empty fields. *)
Definition blank_line_csv_text : string := lines ["a,b"; "1,2"; ","; "3,4"].
(** A header line and no data line. *)
Definition header_only_csv_text : string := lines ["a,b"; ""].
(** A header line whose first field has surrounding spaces. *)
Definition padded_header_csv_text : string := lines [" a ,b"; "1,2"].

(** [JSON.parse] on the text [42]. *)
Definition json_42 : string -> Result JsValue :=
  fun text => if String.eqb text "42" then Ok (JNum 42%float)
              else Throw "Unexpected token".

(** The extensions the specification lists as accepted. *)
Definition accepted_extensions : list string := ["csv"; "xlsx"; "xls"; "json"].

(** [msg] names the extension [e]: [e] occurs in it. *)
Definition names_extension (msg e : string) : bool :=
  bool_decide (is_Some (String.index 0 e msg)).

(** The projection of a resolved or rejected [parseFile] that leaves the
    clock reading out: rows, columns, row count, detected types. *)
Definition table_of (r : Result (list JsValue * Metadata))
  : Result (list JsValue * list string * nat * gmap string TypeTag) :=
  match r with
  | Ok (rs, md) => Ok (rs, columns md, rows md, detectedTypes md)
  | Throw msg => Throw msg
  end.

(** Neither the first nor the last code unit of [l] is white space. *)
Definition no_surrounding_space (l : list ascii) : Prop :=
  (forall c, head l = Some c -> isWhiteSpace c = false)
  /\ (forall c, last l = Some c -> isWhiteSpace c = false).

(** [t] is [s] without its surrounding white space. *)
Definition trimmed_of (s t : string) : Prop :=
  exists pre post : list ascii,
    list_ascii_of_string s = (pre ++ list_ascii_of_string t ++ post)%list
    /\ Forall (fun c => isWhiteSpace c = true) pre
    /\ Forall (fun c => isWhiteSpace c = true) post
    /\ no_surrounding_space (list_ascii_of_string t).

(** A sheet with the header row a, b and three data rows: zeros, the
    numbers 1 and 2, and two [false] cells. *)
Definition zeros_sheet : list (list JsValue) :=
  [ [JStr "a"; JStr "b"];
    [JNum 0%float; JNum 0%float];
    [JNum 1%float; JNum 2%float];
    [JBool false; JBool false] ].

(** [XLSX.read] on the workbook whose first sheet is [zeros_sheet]. *)
Definition zeros_workbook : string -> Result (WorkBook Reference.Sheet) :=
  fun _ => Ok {| SheetNames := ["Sheet1"];
                 Sheets := [("Sheet1",
                             {| Reference.as_arrays := zeros_sheet;
                                Reference.as_objects := [] |})] |}.

(** A sheet whose header row has a padded name, an empty cell, a boolean
    cell and a name followed by a space, over one data row. *)
Definition padded_sheet : list (list JsValue) :=
  [ [JStr " name "; JStr ""; JBool true; JStr "b "];
    [JStr "x"; JStr "y"; JStr "z"; JStr "w"] ].

Definition padded_workbook : string -> Result (WorkBook Reference.Sheet) :=
  fun _ => Ok {| SheetNames := ["Sheet1"];
                 Sheets := [("Sheet1",
                             {| Reference.as_arrays := padded_sheet;
                                Reference.as_objects := [] |})] |}.




(** A CSV text with one data row, a word and an address, and what
    [parseFile] resolves with on it. *)
Definition notes_csv_text : string := lines ["note,email"; "hello,a@b.com"].
Definition notes_rows : list JsValue :=
  [JObj [("note", JStr "hello"); ("email", JStr "a@b.com")]].
Definition notes_metadata : Metadata :=
  {| filename := "notes.csv"; md_size := 24; md_type := Some "csv";
     uploadedAt := now0; sheetName := None; columns := ["note"; "email"];
     rows := 1;
     detectedTypes := {[ "note" := TString; "email" := TEmail ]} |}.

(** The rows and the columns of a resolved [parseFile]. *)
Definition rows_and_columns (r : Result (list JsValue * Metadata))
  : Result (list JsValue * list string) :=
  match r with
  | Ok (rs, md) => Ok (rs, columns md)
  | Throw msg => Throw msg
  end.

(** ** The handlers around the parsers *)

(** *** FileUploadZone.tsx: [onDrop], [removeFile] and the column badges *)
Module FileUploadZone.

(** The two pieces of component state. *)
Record State : Type := {
  uploadedFiles : list UploadedFile;
  isProcessing : bool
}.

(** A call of one of the two callback props. *)
Inductive PropCall : Type :=
| onFileUpload (rows : list JsValue) (hdrs : list string)
| onError (msg : string).

(** What a callback throws: an [Error], by its message, or another value. *)
Inductive Thrown : Type :=
| thrown_Error (msg : string)
| thrown_other.

(** The props of the parent.  A call of a prop returns ([None]) or throws;
    what it does may depend on the calls the handler has made before it.
    [onError] is optional. *)
Record Props : Type := {
  onFileUpload_prop :
    list PropCall -> list JsValue -> list string -> option Thrown;
  onError_prop : option (list PropCall -> string -> option Thrown)
}.

(** [error instanceof Error ? error.message : 'Failed to process files'] *)
Definition errorMessage (t : Thrown) : string :=
  match t with
  | thrown_Error msg => msg
  | thrown_other => "Failed to process files"
  end.

(** [onError?.(msg)] after the calls [calls]: the calls made once it has
    run, and what it throws, if it throws. *)
Definition call_onError (props : Props) (calls : list PropCall) (msg : string)
  : list PropCall * option Thrown :=
  match onError_prop props with
  | None => (calls, None)
  | Some run => ((calls ++ [onError msg])%list, run calls msg)
  end.

(** The two branches after [results.push(result)]: [onFileUpload] on
    success, [onError] when the result carries a message that is truthy. *)
Definition notify (props : Props) (calls : list PropCall) (result : UploadedFile)
  : list PropCall * option Thrown :=
  match status result with
  | status_success =>
      ((calls ++ [onFileUpload (data result) (headers result)])%list,
       onFileUpload_prop props calls (data result) (headers result))
  | status_error =>
      match error result with
      | Some msg =>
          if String.eqb msg "" then (calls, None)
          else call_onError props calls msg
      | None => (calls, None)
      end
  end.

(** Where the [for ... of] loop stands: the local [results] array, the
    calls made, and the value a callback threw, which ends the loop. *)
Record Loop : Type := {
  results : list UploadedFile;
  calls : list PropCall;
  thrown : option Thrown
}.

Fixpoint onDrop_loop (P : Platform) (props : Props) (files : list File)
         (pushed0 : list UploadedFile) (made : list PropCall) : Loop :=
  match files with
  | [] => {| results := pushed0; calls := made; thrown := None |}
  | f :: rest =>
      let result := processFile P f in
      let pushed := (pushed0 ++ [result])%list in
      match notify props made result with
      | (made', None) => onDrop_loop P props rest pushed made'
      | (made', Some t) =>
          {| results := pushed; calls := made'; thrown := Some t |}
      end
  end.


(** The outcome of the handler: the state once it has ended, the calls of
    the props in their order, and the value its promise rejects with when
    the [onError] of the catch block throws. *)
Record Dropped : Type := {
  state : State;
  made_calls : list PropCall;
  rejection : option Thrown
}.

(** [onDrop].  When the loop ends, [setUploadedFiles(prev => [...prev,
    ...results])] runs; when a callback throws in it, the catch block calls
    [onError?.(errorMessage)] instead and the list stays as it was; the
    [finally] block sets [isProcessing] to false either way. *)
Definition onDrop (P : Platform) (props : Props) (st : State)
           (acceptedFiles : list File) : Dropped :=
  let loop := onDrop_loop P props acceptedFiles [] [] in
  match thrown loop with
  | None =>
      {| state := {| uploadedFiles := (uploadedFiles st ++ results loop)%list;
                     isProcessing := false |};
         made_calls := calls loop;
         rejection := None |}
  | Some t =>
      let caught := call_onError props (calls loop) (errorMessage t) in
      {| state := {| uploadedFiles := uploadedFiles st;
                     isProcessing := false |};
         made_calls := caught.1;
         rejection := caught.2 |}
  end.


(** [prev.filter((_, i) => i !== index)] *)
Definition removeFile (index : nat) (st : State) : State :=
  {| uploadedFiles :=
       (List.filter (fun ix : nat * UploadedFile => negb (Nat.eqb ix.1 index))
                    (imap pair (uploadedFiles st))).*2;
     isProcessing := isProcessing st |}.

(** The badges under an uploaded file: [headers.slice(0, 10)], and the
    count of the "+n more" badge when [headers.length > 10]. *)
Definition column_badges (u : UploadedFile) : list string := take 10 (headers u).
Definition more_badge (u : UploadedFile) : option nat :=
  if Nat.ltb 10 (length (headers u)) then Some (length (headers u) - 10)
  else None.

End FileUploadZone.

(** *** The enterprise upload zone: [onDrop] and [handleDescriptionSubmit] *)
Module EnterpriseUploadZone.

Inductive ProcessingStatus : Type := idle | parsing | analyzing | complete.

(** What the catch block of [onDrop] has caught: the rejection of
    [parseFile], an [Error] with the message [msg], or a value that a call
    inside the try threw, by the text [`${error}`] renders it as. *)
Inductive Failure : Type :=
| rejected (msg : string)
| threw (rendered : string).

(** What a handler does, in order: state setters, calls of the props and
    toasts.  [toast_error_failed cause] is [toast.error(`Failed to process
    file: ${error}`)] for the caught value [cause]. *)
Inductive Effect : Type :=
| setUploadedFile (f : File)
| setProcessingStatus (s : ProcessingStatus)
| setTimeout (ms : nat)
| onFileUpload (rows : list JsValue) (metadata : Metadata)
| onDescriptionSubmit (description enhancedPrompt : string)
| toast_success (text : string)
| toast_error (text : string)
| toast_error_failed (cause : Failure).

(** What the calls that [onDrop] makes do: each returns ([None]) or throws
    a value, given by the text it renders as. *)
Record Callbacks : Type := {
  onFileUpload_prop : list JsValue -> Metadata -> option string;
  toast_success_call : string -> option string;
  toast_error_call : Failure -> option string
}.

(** The outcome of the drop handler: its effects in order, and the value
    its promise rejects with when the toast of the catch block throws. *)
Record Dropped : Type := {
  effects : list Effect;
  rejection : option string
}.

(** The catch block, after the effects [before]. *)
Definition onDrop_catch (cb : Callbacks) (before : list Effect) (cause : Failure)
  : Dropped :=
  {| effects :=
       (before ++ [setProcessingStatus idle; toast_error_failed cause])%list;
     rejection := toast_error_call cb cause |}.

(** The text of the success toast. *)
Definition success_text (f : File) (rows : list JsValue) : string :=
  "Successfully processed " +:+ pretty (length rows)
  +:+ " records from " +:+ name f.

(** The [onDrop] handler of the dropzone.  [onFileUpload] and
    [toast.success] are called inside the try, after the status is set to
    complete: when one of them throws, the catch block runs. *)
Definition onDrop (P : Platform) (now : string) (cb : Callbacks)
           (acceptedFiles : list File) : Dropped :=
  match acceptedFiles with
  | [] => {| effects := []; rejection := None |}  (* acceptedFiles.length > 0 *)
  | f :: _ =>
      let started := [setUploadedFile f; setProcessingStatus parsing] in
      match parseFile P now f with
      | Throw msg => onDrop_catch cb started (rejected msg)
      | Ok result =>
          let called :=
            (started ++ [setProcessingStatus analyzing; setTimeout 1000;
                         setProcessingStatus complete;
                         onFileUpload result.1 result.2])%list in
          match onFileUpload_prop cb result.1 result.2 with
          | Some t => onDrop_catch cb called (threw t)
          | None =>
              let toasted :=
                (called ++ [toast_success (success_text f result.1)])%list in
              match toast_success_call cb (success_text f result.1) with
              | Some t => onDrop_catch cb toasted (threw t)
              | None => {| effects := toasted; rejection := None |}
              end
          end
      end
  end.

(** The effects of a drop up to the call of [onFileUpload]. *)
Definition until_onFileUpload (f : File) (rows : list JsValue) (md : Metadata)
  : list Effect :=
  [setUploadedFile f; setProcessingStatus parsing;
   setProcessingStatus analyzing; setTimeout 1000;
   setProcessingStatus complete; onFileUpload rows md].

(** The callbacks that return whenever they are called. *)
Definition quiet : Callbacks :=
  {| onFileUpload_prop := fun _ _ => None;
     toast_success_call := fun _ => None;
     toast_error_call := fun _ => None |}.

(** The value of [processingStatus] once the effects have run. *)
Definition status_after (initial : ProcessingStatus) (effects : list Effect)
  : ProcessingStatus :=
  foldl (fun s e => match e with setProcessingStatus s' => s' | _ => s end)
        initial effects.

(** The text between the description and the enhancement. *)
Definition requirements_separator : string :=
  String PapaModel.LF (String PapaModel.LF "Additional requirements: ").

Definition handleDescriptionSubmit (description enhancementPrompt : string)
  : list Effect :=
  if String.eqb (String_trim description) "" then      (* !description.trim() *)
    [toast_error
       "Please provide a description for the data you want to generate"]
  else
    let enhancedPrompt :=
      if negb (String.eqb (String_trim enhancementPrompt) "")
      then description +:+ requirements_separator +:+ enhancementPrompt
      else description in
    [onDescriptionSubmit description enhancedPrompt;
     toast_success "Starting data generation from description..."].


End EnterpriseUploadZone.

(** *** The data generator: its own [parseFile] *)
Module EnhancedDataGenerator.

(** [row => Object.values(row).some(val => val !== '')] *)
Definition csv_keep (row : Obj) : bool :=
  existsb neq_empty_string (Object_values row).

(** [row => Object.values(row).some(val => val !== null && val !== '')] *)
Definition xlsx_keep (row : Obj) : bool :=
  existsb (fun val => neq_null val && neq_empty_string val) (Object_values row).

Section parseFile.
Variable P : Platform.
Variable f : File.

Definition parseFile_csv : Result (list JsValue) :=
  text ← contents f;                       (* error: (error) => reject(error) *)
  let results :=
    Papa_parse P {| header := true; skipEmptyLines := false;
                    dynamicTyping := false |} text in
  match results_errors results with
  | e :: _ => Throw ("CSV parsing error: " +:+ message e)
  | [] => Ok (JObj <$> List.filter csv_keep (results_data results))
  end.

Definition parseFile_xlsx : Result (list JsValue) :=
  match contents f with
  | Throw _ => Throw "Failed to read Excel file"          (* reader.onerror *)
  | Ok bytes =>
      workbook ← XLSX_read P bytes;
      let jsonData := sheet_to_json P (first_sheet P workbook) in
      Ok (JObj <$> List.filter xlsx_keep jsonData)
  end.

Definition parseFile_json : Result (list JsValue) :=
  match contents f with
  | Throw _ => Throw "Failed to read JSON file"           (* reader.onerror *)
  | Ok text =>
      catch_as
        (jsonData ← JSON_parse P text;
         Ok (match jsonData with
             | JArr elems => elems                (* Array.isArray(jsonData) *)
             | _ => [jsonData]
             end))
        "Invalid JSON format"
  end.

Definition parseFile : Result (list JsValue) :=
  if ext_is (extension_of f) "csv" then parseFile_csv
  else if ext_is (extension_of f) "xlsx" || ext_is (extension_of f) "xls"
       then parseFile_xlsx
  else if ext_is (extension_of f) "json" then parseFile_json
  else Throw "Unsupported file format. Please use CSV, Excel, or JSON files.".
End parseFile.

End EnhancedDataGenerator.




(** Callbacks of the enterprise zone whose [onFileUpload] throws a value
    that renders as "Error: boom". *)
Definition upload_throws : EnterpriseUploadZone.Callbacks :=
  {| EnterpriseUploadZone.onFileUpload_prop := fun _ _ => Some "Error: boom";
     EnterpriseUploadZone.toast_success_call := fun _ => None;
     EnterpriseUploadZone.toast_error_call := fun _ => None |}.

(** The first row that [analyzeDataTypes] samples in a JSON root: the first
    element of an array, the root itself otherwise. *)
Definition first_row_of (root : JsValue) : option JsValue :=
  match root with
  | JArr elems => head elems
  | _ => Some root
  end.

(** The code units of a string are all white space. *)
Definition blank_text (s : string) : Prop :=
  Forall (fun c => isWhiteSpace c = true) (list_ascii_of_string s).

(** A file on which reading fails. *)
Definition unreadable_file (n : string) (msg : string) : File :=
  {| name := n; size := 0%N; contents := Throw msg |}.

(** The JSON text of an array with the one row {a: 1}, and [JSON.parse]
    on it. *)
Definition quote : string := String (ascii_of_nat 34) EmptyString.
Definition one_row_json_text : string :=
  "[{" +:+ quote +:+ "a" +:+ quote +:+ ":1}]".
Definition one_row_json : string -> Result JsValue :=
  fun text => if String.eqb text one_row_json_text
              then Ok (JArr [JObj [("a", JNum 1%float)]])
              else Throw "Unexpected token".

(** [XLSX.read] on a workbook whose first sheet has the header row a, b, a
    row with the number 1 under a, and a row of empty cells. *)
Definition blank_row_workbook : string -> Result (WorkBook Reference.Sheet) :=
  fun _ => Ok {| SheetNames := ["Sheet1"];
                 Sheets :=
                   [("Sheet1",
                     {| Reference.as_arrays :=
                          [ [JStr "a"; JStr "b"];
                            [JNum 1%float; JStr ""];
                            [JStr ""; JStr ""] ];
                        Reference.as_objects :=
                          [ [("a", JNum 1%float)];
                            [("a", JStr ""); ("b", JStr "")] ] |})] |}.

(** ** The model store

    The atoms of the AI model store and its three actions.  A store value
    holds the four atoms; an action is a function of the store, of what the
    backend calls do (they return, or throw a value that the template
    [`${error}`] renders as a text) and of the readings of the clock; it
    gives the store at the time the action settles, no other action having
    written to it in between. *)
Module ModelStore.

Inductive Provider : Type := gemini | openai | anthropic | ollama.

(** [`${config.provider}`] *)
Definition provider_text (p : Provider) : string :=
  match p with
  | gemini => "gemini"
  | openai => "openai"
  | anthropic => "anthropic"
  | ollama => "ollama"
  end.

Record Performance : Type := {
  latency : float;
  reliability : float;
  cost : float
}.

Record ModelConfig : Type := {
  provider : Provider;
  model : string;
  apiKey : string;
  endpoint : option string;
  isActive : bool;
  lastTested : option string;
  performance : option Performance
}.

Inductive HealthStatus : Type := healthy | degraded | offline.

Record Health : Type := {
  status : HealthStatus;
  message : string;
  lastCheck : string
}.

(** [modelConfigAtom], [modelHealthAtom], [isConfiguringModelAtom] and
    [isTestingModelAtom]. *)
Record Store : Type := {
  modelConfig : option ModelConfig;
  modelHealth : Health;
  isConfiguringModel : bool;
  isTestingModel : bool
}.

(** What an awaited call does: it returns, or it throws a value that
    [`${error}`] renders as [rendered]. *)
Inductive Outcome : Type :=
| returns
| throws (rendered : string).

(** The value of [modelStatusAtom]; [isReady] is [undefined] when no model
    is stored. *)
Record ModelStatus : Type := {
  hasModel : bool;
  isReady : option bool;
  isWorking : bool;
  status_provider : option Provider;
  status_model : option string;
  health : Health
}.

Definition modelStatus (st : Store) : ModelStatus :=
  {| hasModel := bool_decide (is_Some (modelConfig st));      (* !!model *)
     isReady :=
       match modelConfig st with
       | None => None                                 (* model?.isActive *)
       | Some m =>
           Some (isActive m
                 && match status (modelHealth st) with
                    | healthy => true
                    | _ => false
                    end)
       end;
     isWorking := isConfiguringModel st || isTestingModel st;
     status_provider := provider <$> modelConfig st;
     status_model := model <$> modelConfig st;
     health := modelHealth st |}.

(** The [finally] block of [configureModelAtom]. *)
Definition settle (st : Store) : Store :=
  {| modelConfig := modelConfig st; modelHealth := modelHealth st;
     isConfiguringModel := false; isTestingModel := false |}.

Definition with_health (h : Health) (st : Store) : Store :=
  {| modelConfig := modelConfig st; modelHealth := h;
     isConfiguringModel := isConfiguringModel st;
     isTestingModel := isTestingModel st |}.

(** The write of [configureModelAtom]: [configured] is the import of the
    API and [ApiService.configureAI], [tested] is
    [ApiService.testAIConnection]; [testedAt] and [checkedAt] are the
    readings of the clock.  The result is the store when the promise
    settles and how it settles. *)
Definition configureModel (configured tested : Outcome)
           (testedAt checkedAt : string) (config : ModelConfig) (st : Store)
  : Store * Outcome :=
  let failure rendered :=
    (settle (with_health
               {| status := offline;
                  message := "Configuration failed: " +:+ rendered;
                  lastCheck := checkedAt |} st),
     throws rendered) in
  match configured with
  | throws rendered => failure rendered
  | returns =>
      match tested with
      | throws rendered => failure rendered
      | returns =>
          let fullConfig :=
            {| provider := provider config; model := model config;
               apiKey := apiKey config; endpoint := endpoint config;
               isActive := true; lastTested := Some testedAt;
               performance := performance config |} in
          (settle
             {| modelConfig := Some fullConfig;
                modelHealth :=
                  {| status := healthy;
                     message := provider_text (provider config)
                                +:+ " model configured successfully";
                     lastCheck := checkedAt |};
                isConfiguringModel := true; isTestingModel := true |},
           returns)
      end
  end.

(** The write of [testModelConnectionAtom]. *)
Definition testModelConnection (tested : Outcome) (checkedAt : string)
           (st : Store) : Store * Outcome :=
  match modelConfig st with
  | None => (st, throws "Error: No model configured")
  | Some _ =>
      let finish h :=
        {| modelConfig := modelConfig st; modelHealth := h;
           isConfiguringModel := isConfiguringModel st;
           isTestingModel := false |} in
      match tested with
      | returns =>
          (finish {| status := healthy;
                     message := "Connection test successful";
                     lastCheck := checkedAt |},
           returns)
      | throws rendered =>
          (finish {| status := offline;
                     message := "Connection test failed: " +:+ rendered;
                     lastCheck := checkedAt |},
           throws rendered)
      end
  end.

(** The write of [removeModelAtom]. *)
Definition removeModel (checkedAt : string) (st : Store) : Store :=
  {| modelConfig := None;
     modelHealth := {| status := offline; message := "Model removed";
                       lastCheck := checkedAt |};
     isConfiguringModel := isConfiguringModel st;
     isTestingModel := isTestingModel st |}.

(** A model is stored, it is active and the health is healthy. *)
Definition ready (st : Store) : Prop :=
  exists m, modelConfig st = Some m /\ isActive m = true
            /\ status (modelHealth st) = healthy.

End ModelStore.

(** * Properties *)

(** ** Type inference *)

Section InferenceFacts.
Variable P : Platform.

Lemma includes_at s :
  String_includes s "@" = true <-> "@"%char ∈ list_ascii_of_string s.
Proof.
  unfold String_includes. rewrite existsb_exists, list_elem_of_In. split.
  - intros (c & Hin & Heq). apply Ascii.eqb_eq in Heq. by subst.
  - intros Hin. exists "@"%char. split; [done | apply Ascii.eqb_refl].
Qed.

Lemma inferType_precedence value : spec_precedence P value (inferType P value).
Proof.
  destruct value as [| | b | n | s | l | o]; simpl;
    try (constructor; auto; fail).
  destruct (String_includes s "@") eqn:Hat.
  - apply rule_email. by apply includes_at.
  - assert ("@"%char ∉ list_ascii_of_string s) as Hno.
    { intros Hin. apply includes_at in Hin. congruence. }
    destruct (Date_parse_isNaN P s) eqn:Hd; simpl; by constructor.
Qed.

Lemma precedence_functional value t :
  spec_precedence P value t -> t = inferType P value.
Proof.
  intros Hr. destruct Hr as [n | b | s Hat | s Hat Hd | s Hat Hd | v Hty]; simpl;
    try done.
  - apply includes_at in Hat. by rewrite Hat.
  - destruct (String_includes s "@") eqn:Hi;
      [by apply includes_at in Hi | by rewrite Hd].
  - destruct (String_includes s "@") eqn:Hi;
      [by apply includes_at in Hi | by rewrite Hd].
  - destruct v; simpl in Hty; try done; by destruct Hty.
Qed.

Lemma types_untouched entries acc key :
  key ∉ entries.*1 -> foldl (assign_type P) acc entries !! key = acc !! key.
Proof.
  revert acc. induction entries as [| [k v] rest IH]; intros acc Hnot; [done |].
  simpl in Hnot. apply not_elem_of_cons in Hnot as [Hne Hnot].
  simpl. rewrite IH by done.
  unfold assign_type; simpl.
  destruct (String.eqb k "__proto__"); [done | by apply lookup_insert_ne].
Qed.

Lemma types_lookup entries acc key value :
  NoDup entries.*1 -> (key, value) ∈ entries -> key <> "__proto__" ->
  foldl (assign_type P) acc entries !! key = Some (inferType P value).
Proof.
  revert acc. induction entries as [| [k v] rest IH]; intros acc Hnd Hin Hkey.
  - by apply elem_of_nil in Hin.
  - simpl in Hnd. apply NoDup_cons in Hnd as [Hk Hnd].
    apply elem_of_cons in Hin as [Heq | Hin]; simpl.
    + inversion Heq; subst. rewrite types_untouched by done.
      unfold assign_type; simpl.
      destruct (String.eqb k "__proto__") eqn:Hp;
        [by apply String.eqb_eq in Hp | apply lookup_insert_eq].
    + by apply IH.
Qed.

Lemma types_domain entries acc key :
  is_Some (foldl (assign_type P) acc entries !! key) ->
  (key ∈ entries.*1 /\ key <> "__proto__") \/ is_Some (acc !! key).
Proof.
  revert acc. induction entries as [| [k v] rest IH]; intros acc Hs; [by right |].
  simpl in Hs. apply IH in Hs as [[Hin Hne] | Hs];
    [left; split; [simpl; by right | done] |].
  unfold assign_type in Hs; simpl in Hs.
  destruct (String.eqb k "__proto__") eqn:Hp; [by right |].
  destruct (decide (k = key)) as [-> | Hne].
  - left. split; [simpl; by left |]. intros ->. by rewrite String.eqb_refl in Hp.
  - rewrite lookup_insert_ne in Hs by done. by right.
Qed.

(** C1.  On a table whose first row has the entries [entries] (an object,
    or any other value that [Object.entries] takes), [analyzeDataTypes]
    returns a map that gives every field of that row whose name is not
    [__proto__] a tag, the tag that the precedence number, boolean, email
    ('@'), date (the string parses as a date), string selects, and gives a
    tag to no other key; object, array, null and undefined values get the
    tag string.  On the first row {age: 30, active: true, email: "a@b.com",
    joined: "2024-01-01", note: "hello"}, with an engine whose [Date.parse]
    accepts "2024-01-01" and not "hello", the map is {age: number,
    active: boolean, email: email, joined: date, note: string}.  The field
    named [__proto__] is the one the forEach misses: on the first row
    {"__proto__": 1}, as [JSON.parse] builds it, the map is empty. *)
Theorem C1_analyzeDataTypes_precedence (first : JsValue) (rest : list JsValue)
        (entries : Obj) :
  Object_entries first = Ok entries ->
  NoDup entries.*1 ->
  (exists types,
      analyzeDataTypes P (first :: rest) = Ok types
      /\ (forall key value, (key, value) ∈ entries -> key <> "__proto__" ->
            exists tag, types !! key = Some tag
                        /\ spec_precedence P value tag
                        /\ forall t, spec_precedence P value t -> t = tag)
      /\ (forall key, is_Some (types !! key) ->
            key ∈ entries.*1 /\ key <> "__proto__"))
  /\ (forall fields elems, inferType P (JObj fields) = TString
                           /\ inferType P (JArr elems) = TString)
  /\ (Date_parse_isNaN P "2024-01-01" = false ->
      Date_parse_isNaN P "hello" = true ->
      analyzeDataTypes P (JObj example_row :: rest) = Ok example_types)
  /\ analyzeDataTypes P (JObj proto_row :: rest) = Ok ∅.
Proof.
  intros He Hnd. split; [| split; [| split]].
  - exists (foldl (assign_type P) ∅ entries). split; [| split].
    + simpl. by rewrite He.
    + intros key value Hin Hkey. exists (inferType P value).
      split; [by apply types_lookup |].
      split; [apply inferType_precedence | apply precedence_functional].
    + intros key Hs. apply types_domain in Hs as [Hin | Hs]; [done |].
      rewrite lookup_empty in Hs. by destruct Hs.
  - by intros fields elems.
  - intros Hdate Hnote. simpl. unfold assign_type, inferType; simpl.
    rewrite Hdate, Hnote. reflexivity.
  - reflexivity.
Qed.

(** C2.  [analyzeDataTypes] reads [data[0]] and nothing else: on a
    non-empty row list the result is the result on the one-element list of
    its first row, so two tables with the same first row get the same
    map, whatever their later rows hold. *)
Theorem C2_first_row_only (first : JsValue) (rest : list JsValue) :
  analyzeDataTypes P (first :: rest) = analyzeDataTypes P [first]
  /\ forall later, analyzeDataTypes P (first :: later)
                   = analyzeDataTypes P (first :: rest).
Proof. split; [reflexivity | intros later; reflexivity]. Qed.
End InferenceFacts.

Lemma C1_example_witness :
  NoDup example_row.*1
  /\ analyzeDataTypes Reference.csv_platform [JObj example_row] = Ok example_types
  /\ analyzeDataTypes Reference.csv_platform [JObj proto_row] = Ok ∅.
Proof.
  assert (NoDup example_row.*1) as Hnd.
  { apply (bool_decide_unpack _). vm_compute. exact I. }
  split; [exact Hnd |].
  destruct (C1_analyzeDataTypes_precedence Reference.csv_platform
              (JObj example_row) [] example_row eq_refl Hnd)
    as (_ & _ & Hexample & Hproto).
  split; [apply Hexample; reflexivity | exact Hproto].
Defined.

(** ** The extension of a file *)

Lemma lower_unit_dot c : Ascii.eqb (lower_unit c) "." = Ascii.eqb c ".".
Proof. destruct c as [[] [] [] [] [] [] [] []]; reflexivity. Qed.

Lemma toLowerCase_cons c s :
  toLowerCase (String c s) = String (lower_unit c) (toLowerCase s).
Proof. reflexivity. Qed.

Lemma split_toLowerCase s :
  String_split "." (toLowerCase s) = toLowerCase <$> String_split "." s.
Proof.
  induction s as [| c s IH]; [reflexivity |].
  rewrite toLowerCase_cons. simpl. rewrite lower_unit_dot, IH.
  destruct (Ascii.eqb c "."); [reflexivity |].
  destruct (String_split "." s) as [| seg segs]; reflexivity.
Qed.

(** The two components compute the same extension: lowering the name and
    then splitting it, or splitting it and then lowering the last part. *)
Lemma lower_extension_eq f : lower_extension f = extension_of f.
Proof.
  unfold lower_extension, extension_of, Array_pop.
  rewrite split_toLowerCase. apply fmap_last.
Qed.

Lemma ext_is_true e lit : ext_is e lit = true <-> e = Some lit.
Proof.
  destruct e as [x |]; simpl; [| split; discriminate].
  rewrite String.eqb_eq. split; [by intros -> | by intros [= ->]].
Qed.

(** ** The result of [processFile] *)

Section ProcessFileFacts.
Variable P : Platform.

Lemma processFile_throw f msg :
  processFile_try P f = Throw msg -> processFile P f = failed f msg.
Proof. unfold processFile. by intros ->. Qed.

Lemma processFile_ok f rows hdrs :
  processFile_try P f = Ok (rows, hdrs) -> processFile P f = succeeded f rows hdrs.
Proof. unfold processFile. by intros ->. Qed.

Lemma processFile_try_cases f :
  (exists rows hdrs, processFile_try P f = Ok (rows, hdrs)
                     /\ processFile_parse P f = Ok (rows, hdrs)
                     /\ rows <> [] /\ hdrs <> [])
  \/ (exists msg, processFile_try P f = Throw msg).
Proof.
  unfold processFile_try.
  destruct (processFile_parse P f) as [[rows hdrs] | msg]; simpl;
    [| right; by eexists].
  unfold processFile_checks; simpl.
  destruct rows as [| r rows]; [right; by eexists |].
  destruct hdrs as [| h hdrs]; [right; by eexists |].
  left. by exists (r :: rows), (h :: hdrs).
Qed.

(** C8.  Whatever the file, [processFile] returns one of two records: on
    success the parsed rows and headers, both non-empty, and no message; on
    any failure the status error with the message of the failure, an empty
    row list and an empty header list.  The rows it returns are all the rows
    of the dispatch or none of them, never a part. *)
Theorem C8_failure_carries_no_rows (f : File) :
  ((exists rows hdrs,
       processFile P f = succeeded f rows hdrs
       /\ processFile_parse P f = Ok (rows, hdrs) /\ rows <> [] /\ hdrs <> [])
   \/ (exists msg,
         processFile P f = failed f msg /\ processFile_try P f = Throw msg))
  /\ (status (processFile P f) = status_error <->
      data (processFile P f) = [] /\ headers (processFile P f) = []
      /\ is_Some (error (processFile P f)))
  /\ (forall rows hdrs, processFile_parse P f = Ok (rows, hdrs) ->
        data (processFile P f) = rows \/ data (processFile P f) = []).
Proof.
  destruct (processFile_try_cases f) as [(rows & hdrs & Ht & Hp & Hr & Hh) | [msg Ht]].
  - rewrite (processFile_ok _ _ _ Ht). split; [| split].
    + left. by exists rows, hdrs.
    + simpl. split; [discriminate | by intros [? _]].
    + intros rows' hdrs' Hp'. rewrite Hp in Hp'. injection Hp' as <- <-. by left.
  - rewrite (processFile_throw _ _ Ht). split; [| split].
    + right. by exists msg.
    + simpl. split; [by eauto | done].
    + intros rows' hdrs' _. by right.
Qed.
End ProcessFileFacts.

(** ** Empty tables, scalar JSON roots, unsupported extensions *)

Section Rejections.
Variable P : Platform.

Lemma processFile_parse_csv f :
  extension_of f = Some "csv" -> processFile_parse P f = processFile_csv P f.
Proof.
  intros He. unfold processFile_parse. by rewrite lower_extension_eq, He.
Qed.

Lemma processFile_parse_json f :
  extension_of f = Some "json" -> processFile_parse P f = processFile_json P f.
Proof.
  intros He. unfold processFile_parse. by rewrite lower_extension_eq, He.
Qed.

Lemma processFile_of_parse f rows hdrs :
  processFile_parse P f = Ok (rows, hdrs) ->
  processFile_try P f = processFile_checks (rows, hdrs).
Proof. unfold processFile_try. by intros ->. Qed.

(** C4, as the code has it.  In [processFile], when the dispatch leaves an
    empty row list the result is the failure "File contains no data"; when
    it leaves rows and an empty header list the result is the failure
    "Could not detect column headers"; otherwise the rows and headers are
    returned.  In particular a CSV text for which the parser reports no
    error and no data row (a header line of two fields or more and no data
    line) fails with "File contains no data".  [parseFile] makes neither
    check: on such a text it resolves with an empty table, zero rows and no
    column.  When the parser reports an error, both components fail with
    the parser's message, before any check of the rows. *)
Theorem C4_processFile_rejects_empty_tables (f : File) :
  (forall rows hdrs, processFile_parse P f = Ok (rows, hdrs) ->
     (rows = [] -> processFile P f = failed f "File contains no data")
     /\ (rows <> [] -> hdrs = [] ->
         processFile P f = failed f "Could not detect column headers")
     /\ (rows <> [] -> hdrs <> [] -> processFile P f = succeeded f rows hdrs))
  /\ (forall text,
        extension_of f = Some "csv" -> contents f = Ok text ->
        results_errors (Papa_parse P processFile_config text) = [] ->
        results_data (Papa_parse P processFile_config text) = [] ->
        processFile P f = failed f "File contains no data")
  /\ (forall now text,
        extension_of f = Some "csv" -> contents f = Ok text ->
        results_errors (Papa_parse P parseFile_config text) = [] ->
        results_data (Papa_parse P parseFile_config text) = [] ->
        exists md, parseFile P now f = Ok ([], md)
                   /\ rows md = 0 /\ columns md = [])
  /\ (forall now text e es,
        extension_of f = Some "csv" -> contents f = Ok text ->
        (results_errors (Papa_parse P processFile_config text) = e :: es ->
         processFile P f = failed f ("CSV parsing error: " +:+ message e))
        /\ (results_errors (Papa_parse P parseFile_config text) = e :: es ->
            parseFile P now f = Throw ("CSV parsing error: " +:+ message e))).
Proof.
  split; [| split; [| split]].
  - intros rows hdrs Hp. pose proof (processFile_of_parse _ _ _ Hp) as Ht.
    unfold processFile_checks in Ht; simpl in Ht. split; [| split].
    + intros ->. by apply processFile_throw.
    + intros Hr ->. destruct rows; [done |]. by apply processFile_throw.
    + intros Hr Hh. destruct rows; [done |]. destruct hdrs; [done |].
      by apply processFile_ok.
  - intros text He Hc Herr Hdata. apply processFile_throw.
    unfold processFile_try. rewrite (processFile_parse_csv _ He).
    unfold processFile_csv. rewrite Hc. simpl.
    change {| header := true; skipEmptyLines := true; dynamicTyping := true |}
      with processFile_config.
    by rewrite Herr, Hdata.
  - intros now text He Hc Herr Hdata. unfold parseFile. rewrite He. simpl.
    unfold parseFile_csv. rewrite Hc. simpl.
    change {| header := true; skipEmptyLines := true; dynamicTyping := false |}
      with parseFile_config.
    rewrite Herr, Hdata. simpl. by eexists.
  - intros now text e es He Hc. split.
    + intros Herr. apply processFile_throw.
      unfold processFile_try. rewrite (processFile_parse_csv _ He).
      unfold processFile_csv. rewrite Hc. simpl.
      change {| header := true; skipEmptyLines := true; dynamicTyping := true |}
        with processFile_config.
      by rewrite Herr.
    + intros Herr. unfold parseFile. rewrite He. simpl.
      unfold parseFile_csv. rewrite Hc. simpl.
      change {| header := true; skipEmptyLines := true; dynamicTyping := false |}
        with parseFile_config.
      by rewrite Herr.
Qed.

(** C5, as the code has it.  For a JSON file whose text parses to the root
    [root]: when [root] is a number, a string or a boolean (its [typeof] is
    not 'object'), [processFile] fails with "JSON must be an array or
    object" and returns no rows and no headers; [parseFile] does not reject
    such a root: it wraps every root that is a number, a string, a boolean
    or an object in a one-element row list and resolves with it. *)
Theorem C5_json_scalar_roots (now : string) (f : File) (text : string)
        (root : JsValue) :
  extension_of f = Some "json" ->
  contents f = Ok text ->
  JSON_parse P text = Ok root ->
  (typeof root <> ty_object ->
   processFile P f = failed f "JSON must be an array or object"
   /\ data (processFile P f) = [] /\ headers (processFile P f) = [])
  /\ (Array_isArray root = false -> root <> JNull -> root <> JUndefined ->
      exists md, parseFile P now f = Ok ([root], md) /\ rows md = 1).
Proof.
  intros He Hc Hj.
  assert (processFile_try P f
          = parsed ← processFile_json P f; processFile_checks parsed) as Ht.
  { unfold processFile_try. by rewrite (processFile_parse_json _ He). }
  assert (parseFile P now f = parseFile_json P now f) as Hpf.
  { unfold parseFile. by rewrite He. }
  unfold processFile_json in Ht. rewrite Hc in Ht; simpl in Ht.
  rewrite Hj in Ht; simpl in Ht.
  unfold parseFile_json in Hpf. rewrite Hc, Hj in Hpf; simpl in Hpf.
  split.
  - intros Hty.
    assert (processFile P f = failed f "JSON must be an array or object") as ->;
      [| done].
    apply processFile_throw. rewrite Ht. by destruct root.
  - intros Harr Hnull Hundef. rewrite Hpf. unfold resolve_with, columns_of.
    destruct root as [| | b | n | s | l | o]; try done; simpl.
    + destruct b; simpl; by eexists.
    + unfold js_or; simpl.
      destruct (negb (is_zero n || is_nan n)); simpl; by eexists.
    + unfold js_or; simpl. destruct (negb (String.eqb s "")); simpl; by eexists.
    + by eexists.
Qed.

(** C6, as the code has it.  When the lowercase extension of the file name
    is none of csv, xlsx, xls and json, [processFile] returns at once the
    failure "Unsupported file type: " followed by that extension, and
    [parseFile] rejects with "Unsupported file format. Please use CSV,
    Excel, or JSON files."; neither outcome depends on the contents of the
    file, readable or not, or on what the parsers would do. *)
Theorem C6_unsupported_extension (now : string) (f : File) :
  ext_is (extension_of f) "csv" = false ->
  ext_is (extension_of f) "xlsx" = false ->
  ext_is (extension_of f) "xls" = false ->
  ext_is (extension_of f) "json" = false ->
  processFile P f
  = failed f ("Unsupported file type: " +:+ ext_text (extension_of f))
  /\ parseFile P now f
     = Throw "Unsupported file format. Please use CSV, Excel, or JSON files."
  /\ (forall (P' : Platform) (f' : File),
        name f' = name f ->
        error (processFile P' f') = error (processFile P f)
        /\ parseFile P' now f' = parseFile P now f).
Proof.
  intros Hcsv Hxlsx Hxls Hjson.
  assert (forall (Q : Platform) g, name g = name f ->
            processFile Q g
            = failed g ("Unsupported file type: " +:+ ext_text (extension_of f))
            /\ parseFile Q now g
               = Throw "Unsupported file format. Please use CSV, Excel, or JSON files.")
    as Hall.
  { intros Q g Hname.
    assert (extension_of g = extension_of f) as Hext
        by (unfold extension_of; by rewrite Hname).
    split.
    - apply processFile_throw. unfold processFile_try, processFile_parse.
      rewrite lower_extension_eq, Hext, Hcsv, Hxlsx, Hxls, Hjson. reflexivity.
    - unfold parseFile. by rewrite Hext, Hcsv, Hxlsx, Hxls, Hjson. }
  destruct (Hall P f eq_refl) as [Hp Hq]. split; [done | split; [done |]].
  intros P' f' Hname. destruct (Hall P' f' Hname) as [Hp' Hq'].
  by rewrite Hp, Hp', Hq, Hq'.
Qed.
End Rejections.

(** A header line of two fields and no data line, in [processFile]: the
    failure "File contains no data". *)
Lemma C4_header_only_witness :
  processFile Reference.csv_platform
              (Reference.text_file "empty.csv" header_only_csv_text)
  = failed (Reference.text_file "empty.csv" header_only_csv_text)
           "File contains no data".
Proof.
  apply (proj1 (proj2 (C4_processFile_rejects_empty_tables
                         Reference.csv_platform
                         (Reference.text_file "empty.csv" header_only_csv_text)))
               header_only_csv_text); reflexivity.
Defined.

(** The same file in [parseFile]: it resolves with an empty table of zero
    rows and no column. *)
Lemma C4_parseFile_resolves_empty :
  parseFile Reference.csv_platform now0
            (Reference.text_file "empty.csv" header_only_csv_text)
  = Ok ([], {| filename := "empty.csv"; md_size := 4; md_type := Some "csv";
               uploadedAt := now0; sheetName := None; columns := [];
               rows := 0; detectedTypes := ∅ |}).
Proof. reflexivity. Qed.

(** The JSON text 42 in [processFile]: the failure names the root shape. *)
Lemma C5_bare_number_witness :
  processFile (Reference.platform Reference.no_workbook json_42 Reference.no_print)
              (Reference.text_file "n.json" "42")
  = failed (Reference.text_file "n.json" "42") "JSON must be an array or object".
Proof.
  apply (proj1 (C5_json_scalar_roots
                  (Reference.platform Reference.no_workbook json_42
                                      Reference.no_print)
                  now0 (Reference.text_file "n.json" "42") "42" (JNum 42%float)
                  eq_refl eq_refl eq_refl)).
  discriminate.
Defined.

(** The JSON text 42 in [parseFile]: it resolves with the one row 42. *)
Lemma C5_parseFile_accepts_bare_number :
  parseFile (Reference.platform Reference.no_workbook json_42 Reference.no_print)
            now0 (Reference.text_file "n.json" "42")
  = Ok ([JNum 42%float],
        {| filename := "n.json"; md_size := 2; md_type := Some "json";
           uploadedAt := now0; sheetName := None; columns := [];
           rows := 1; detectedTypes := ∅ |}).
Proof. reflexivity. Qed.

Lemma C6_text_file_witness :
  processFile Reference.csv_platform (Reference.text_file "notes.TXT" "x")
  = failed (Reference.text_file "notes.TXT" "x") "Unsupported file type: txt"
  /\ parseFile Reference.csv_platform now0 (Reference.text_file "notes.TXT" "x")
     = Throw "Unsupported file format. Please use CSV, Excel, or JSON files.".
Proof.
  destruct (C6_unsupported_extension Reference.csv_platform now0
              (Reference.text_file "notes.TXT" "x")
              eq_refl eq_refl eq_refl eq_refl) as (Hp & Hq & _).
  split; [exact Hp | exact Hq].
Defined.

(** The message of [processFile] names the rejected extension and none of
    the accepted ones; the message of [parseFile] names CSV, Excel and JSON,
    and neither xlsx nor xls. *)
Lemma C6_messages_do_not_name_the_set :
  error (processFile Reference.csv_platform (Reference.text_file "notes.txt" "x"))
  = Some "Unsupported file type: txt"
  /\ existsb (names_extension "Unsupported file type: txt") accepted_extensions
     = false
  /\ parseFile Reference.csv_platform now0 (Reference.text_file "notes.txt" "x")
     = Throw "Unsupported file format. Please use CSV, Excel, or JSON files."
  /\ forallb (names_extension
                "Unsupported file format. Please use CSV, Excel, or JSON files.")
             accepted_extensions
     = false.
Proof. repeat split; reflexivity. Qed.

(** ** Blank rows of a CSV table *)

Lemma filter_sublist {A : Type} (p : A -> bool) (l : list A) :
  sublist (List.filter p l) l.
Proof.
  induction l as [| x l IH]; simpl; [constructor |].
  destruct (p x); by constructor.
Qed.

Lemma filter_elem_of {A : Type} (p : A -> bool) (l : list A) (x : A) :
  x ∈ List.filter p l <-> x ∈ l /\ p x = true.
Proof. rewrite !list_elem_of_In. apply filter_In. Qed.

Lemma value_is_blank v :
  neq_empty_string v && neq_null v && neq_undefined v = false
  <-> v = JStr "" \/ v = JNull \/ v = JUndefined.
Proof.
  destruct v as [| | b | n | s | l | o]; simpl;
    try (split; [discriminate | intros [? | [? | ?]]; discriminate]);
    try (split; auto; fail).
  destruct (String.eqb_spec s "") as [-> | Hne]; simpl.
  - split; [by left | done].
  - split; [done | intros [[= ->] | [? | ?]]; done].
Qed.

Lemma clean_keep_false row : clean_keep row = false <-> blank_row row.
Proof.
  unfold clean_keep, blank_row. split.
  - intros Hex v Hv. apply value_is_blank.
    destruct (neq_empty_string v && neq_null v && neq_undefined v) eqn:Hk; [| done].
    assert (existsb (fun val => neq_empty_string val && neq_null val
                                && neq_undefined val) (Object_values row) = true)
      as Habs by (apply existsb_exists; exists v; by rewrite <- list_elem_of_In).
    congruence.
  - intros Hall. apply not_true_is_false. intros Hex.
    apply existsb_exists in Hex as (v & Hv & Hk).
    apply list_elem_of_In, Hall, value_is_blank in Hv. congruence.
Qed.

Lemma clean_keep_true row : clean_keep row = true <-> ~ blank_row row.
Proof.
  rewrite <- clean_keep_false. destruct (clean_keep row); split; congruence.
Qed.

Lemma filter_without {A : Type} (p : A -> bool) (dropped : A -> Prop)
      (l : list A) :
  (forall x, p x = false <-> dropped x) -> without dropped l (List.filter p l).
Proof.
  intros Hp. induction l as [| x l IH]; simpl; [constructor |].
  destruct (p x) eqn:Hx.
  - apply without_keep; [| done]. intros Hd. apply Hp in Hd. congruence.
  - apply without_drop; [by apply Hp | done].
Qed.

Lemma without_functional {A : Type} (dropped : A -> Prop) (l k1 k2 : list A) :
  without dropped l k1 -> without dropped l k2 -> k1 = k2.
Proof.
  intros H1. revert k2.
  induction H1 as [| x l k1 Hd _ IH | x l k1 Hd _ IH]; intros k2 H2;
    inversion H2; subst; try done.
  - by apply IH.
  - f_equal. by apply IH.
Qed.

Lemma resolve_with_objects P now f sheet (kept : list Obj) :
  exists md,
    resolve_with P now f sheet (JObj <$> kept) = Ok (JObj <$> kept, md)
    /\ rows md = length kept
    /\ columns md = default [] ((fun row : Obj => row.*1) <$> head kept)
    /\ sheetName md = sheet.
Proof.
  unfold resolve_with, columns_of.
  destruct kept as [| row kept]; simpl; eexists; repeat split.
  simpl. by rewrite length_fmap.
Qed.

Section BlankRows.
Variable P : Platform.

(** C3, as the code has it.  For a CSV file, [parseFile] rejects with the
    message of the first error when the parser reports one; otherwise it
    resolves with the rows of the parser's result without those whose
    fields are all the empty string, null or undefined: the others, in
    their order and each as often as the parser gives it, and no other
    list; the row count of the metadata is their number.  The text
    "a,b\n1,2\n,\n3,4", whose blank line has the two fields of the header,
    gives the two rows {a:"1",b:"2"} and {a:"3",b:"4"}, with the cells as
    strings. *)
Theorem C3_parseFile_drops_blank_rows (now : string) (f : File) (text : string) :
  extension_of f = Some "csv" ->
  contents f = Ok text ->
  (forall e es,
      results_errors (Papa_parse P parseFile_config text) = e :: es ->
      parseFile P now f = Throw ("CSV parsing error: " +:+ message e))
  /\ (results_errors (Papa_parse P parseFile_config text) = [] ->
      exists kept md,
        parseFile P now f = Ok (JObj <$> kept, md)
        /\ without blank_row
                   (results_data (Papa_parse P parseFile_config text)) kept
        /\ (forall kept',
              without blank_row
                      (results_data (Papa_parse P parseFile_config text)) kept' ->
              kept' = kept)
        /\ sublist kept (results_data (Papa_parse P parseFile_config text))
        /\ (forall row,
              row ∈ kept <->
              row ∈ results_data (Papa_parse P parseFile_config text)
              /\ ~ blank_row row)
        /\ rows md = length kept)
  /\ rows_and_columns
       (parseFile Reference.csv_platform now
                  (Reference.text_file "rows.csv" blank_line_csv_text))
     = Ok ([JObj [("a", JStr "1"); ("b", JStr "2")];
            JObj [("a", JStr "3"); ("b", JStr "4")]],
           ["a"; "b"]).
Proof.
  intros He Hc.
  assert (parseFile P now f = parseFile_csv P now f) as ->
      by (unfold parseFile; by rewrite He).
  unfold parseFile_csv. rewrite Hc. simpl.
  change {| header := true; skipEmptyLines := true; dynamicTyping := false |}
    with parseFile_config.
  split; [| split].
  - by intros e es ->.
  - intros ->.
    destruct (resolve_with_objects P now f None
                (List.filter clean_keep
                   (results_data (Papa_parse P parseFile_config text))))
      as (md & Hres & Hrows & _).
    pose proof (filter_without clean_keep blank_row
                  (results_data (Papa_parse P parseFile_config text))
                  clean_keep_false) as Hkept.
    eexists _, md. split; [exact Hres |]. split; [exact Hkept |].
    split; [intros kept' Hk'; by eapply without_functional |].
    split; [apply filter_sublist |].
    split; [| exact Hrows].
    intros row. rewrite filter_elem_of. by rewrite clean_keep_true.
  - reflexivity.
Qed.
End BlankRows.

Lemma C3_blank_line_witness :
  exists kept md,
    parseFile Reference.csv_platform now0
              (Reference.text_file "rows.csv" blank_line_csv_text)
    = Ok (JObj <$> kept, md)
    /\ without blank_row
               (results_data
                  (Papa_parse Reference.csv_platform parseFile_config
                              blank_line_csv_text))
               kept
    /\ length kept = 2.
Proof.
  destruct (C3_parseFile_drops_blank_rows Reference.csv_platform now0
              (Reference.text_file "rows.csv" blank_line_csv_text)
              blank_line_csv_text eq_refl eq_refl) as (_ & Hok & _).
  destruct (Hok eq_refl) as (kept & md & Hres & Hkept & _ & _ & _ & Hrows).
  exists kept, md. split; [exact Hres |]. split; [exact Hkept |].
  rewrite <- Hrows. injection Hres as _ <-. reflexivity.
Defined.

(** The text of the specification's example is rejected by both components:
    its blank line has three fields, one more than the header.  And
    [processFile] keeps the blank line of two fields as a row of nulls. *)
Lemma C3_spec_example_is_rejected :
  parseFile Reference.csv_platform now0
            (Reference.text_file "rows.csv" spec_csv_text)
  = Throw "CSV parsing error: Too many fields: expected 2 fields but parsed 3"
  /\ processFile Reference.csv_platform
                 (Reference.text_file "rows.csv" spec_csv_text)
     = failed (Reference.text_file "rows.csv" spec_csv_text)
              "CSV parsing error: Too many fields: expected 2 fields but parsed 3"
  /\ data (processFile Reference.csv_platform
                       (Reference.text_file "rows.csv" blank_line_csv_text))
     = [JObj [("a", JNum 1%float); ("b", JNum 2%float)];
        JObj [("a", JNull); ("b", JNull)];
        JObj [("a", JNum 3%float); ("b", JNum 4%float)]].
Proof. repeat split; reflexivity. Qed.

(** ** Row objects of a sheet *)



Lemma obj_get_replace o key v :
  is_Some (obj_get key o) -> obj_get key (replace_own key v o) = Some v.
Proof.
  induction o as [| [k w] o IH]; simpl; [by intros [? ?] |].
  destruct (String.eqb k key) eqn:Hk; simpl; rewrite Hk; [done | exact IH].
Qed.

Lemma obj_get_replace_ne o key key' v :
  key <> key' -> obj_get key' (replace_own key v o) = obj_get key' o.
Proof.
  intros Hne. induction o as [| [k w] o IH]; simpl; [done |].
  destruct (String.eqb_spec k key) as [-> | Hk]; simpl.
  - destruct (String.eqb_spec key key'); done.
  - by rewrite IH.
Qed.

Lemma obj_get_add_index o n key v :
  obj_get key o = None -> obj_get key (add_index n key v o) = Some v.
Proof.
  induction o as [| [k w] o IH]; simpl.
  - by rewrite String.eqb_refl.
  - destruct (String.eqb k key) eqn:Hk; [done |]. intros Ho.
    destruct (array_index k) as [m |]; [destruct (m <? n)%N |]; simpl;
      rewrite ?Hk, ?String.eqb_refl; auto.
Qed.

Lemma obj_get_add_index_ne o n key key' v :
  key <> key' -> obj_get key' (add_index n key v o) = obj_get key' o.
Proof.
  intros Hne. apply String.eqb_neq in Hne.
  induction o as [| [k w] o IH]; simpl; [by rewrite Hne |].
  destruct (array_index k) as [m |]; [destruct (m <? n)%N |]; simpl;
    rewrite ?Hne, ?IH; done.
Qed.

Lemma obj_get_snoc o key key' v :
  obj_get key' (o ++ [(key, v)])
  = match obj_get key' o with
    | Some w => Some w
    | None => if String.eqb key key' then Some v else None
    end.
Proof.
  induction o as [| [k w] o IH]; simpl; [done |].
  by destruct (String.eqb k key').
Qed.

(** Reading back what an assignment wrote: under every name but
    [__proto__] the object holds the value assigned. *)
Lemma obj_get_set o key v :
  key <> "__proto__" -> obj_get key (obj_set key v o) = Some v.
Proof.
  intros Hkey. unfold obj_set. destruct (obj_get key o) as [w |] eqn:Ho.
  - apply obj_get_replace. rewrite Ho. by eexists.
  - apply String.eqb_neq in Hkey. rewrite Hkey.
    destruct (array_index key) as [n |]; [by apply obj_get_add_index |].
    by rewrite obj_get_snoc, Ho, String.eqb_refl.
Qed.

Lemma obj_get_set_ne o key key' v :
  key <> key' -> obj_get key' (obj_set key v o) = obj_get key' o.
Proof.
  intros Hne. unfold obj_set. destruct (obj_get key o) as [w |] eqn:Ho.
  - by apply obj_get_replace_ne.
  - destruct (String.eqb key "__proto__"); [done |].
    destruct (array_index key) as [n |]; [by apply obj_get_add_index_ne |].
    rewrite obj_get_snoc. apply String.eqb_neq in Hne. rewrite Hne.
    by destruct (obj_get key' o).
Qed.

Lemma replace_own_values o key v w :
  w ∈ (replace_own key v o).*2 -> w = v \/ w ∈ o.*2.
Proof.
  induction o as [| [k u] o IH]; simpl; [by right |].
  destruct (String.eqb k key); simpl; intros Hw;
    apply elem_of_cons in Hw as [-> | Hw]; auto.
  - right. by right.
  - right. by left.
  - destruct (IH Hw) as [-> | Hin]; [by left | right; by right].
Qed.

Lemma add_index_values o n key v w :
  w ∈ (add_index n key v o).*2 -> w = v \/ w ∈ o.*2.
Proof.
  induction o as [| [k u] o IH]; simpl.
  - intros Hw. apply list_elem_of_singleton in Hw. by left.
  - destruct (array_index k) as [m |]; [destruct (m <? n)%N |]; simpl;
      intros Hw; apply elem_of_cons in Hw as [-> | Hw]; auto.
    + right. by left.
    + destruct (IH Hw) as [-> | Hin]; [by left | right; by right].
Qed.

Lemma obj_set_values o key v w :
  w ∈ Object_values (obj_set key v o) -> w = v \/ w ∈ Object_values o.
Proof.
  unfold Object_values, obj_set. destruct (obj_get key o) as [u |].
  - apply replace_own_values.
  - destruct (String.eqb key "__proto__"); [by right |].
    destruct (array_index key) as [n |]; [apply add_index_values |].
    rewrite fmap_app. intros Hw. apply elem_of_app in Hw as [Hw | Hw]; [by right |].
    apply list_elem_of_singleton in Hw. by left.
Qed.

Lemma xlsx_row_snoc hs h row :
  xlsx_row (hs ++ [h]) row
  = obj_set h (js_or (at_index row (length hs)) (JStr "")) (xlsx_row hs row).
Proof.
  unfold xlsx_row. rewrite imap_app, foldl_app. simpl.
  by rewrite Nat.add_0_r.
Qed.

Lemma xlsx_row_get hs row i h :
  NoDup hs -> hs !! i = Some h -> h <> "__proto__" ->
  obj_get h (xlsx_row hs row) = Some (js_or (at_index row i) (JStr "")).
Proof.
  revert i h. induction hs as [| h' hs IH] using rev_ind; intros i h Hnd Hi Hh.
  - by rewrite lookup_nil in Hi.
  - rewrite xlsx_row_snoc. apply NoDup_app in Hnd as (Hnd & Hfresh & _).
    destruct (decide (i < length hs)) as [Hlt | Hge].
    + rewrite lookup_app_l in Hi by done.
      assert (h' <> h) as Hne.
      { intros ->. apply (Hfresh h); [by eapply list_elem_of_lookup_2 | by left]. }
      rewrite obj_get_set_ne by done. by apply IH.
    + rewrite lookup_app_r in Hi by lia.
      destruct (i - length hs) as [| n] eqn:Hd; simpl in Hi; [| by rewrite lookup_nil in Hi].
      injection Hi as ->. replace i with (length hs) by lia.
      by apply obj_get_set.
Qed.

(** What a row object holds: the empty string, or a cell of the row that
    is truthy. *)
Lemma xlsx_row_values hs row w :
  w ∈ Object_values (xlsx_row hs row) ->
  w = JStr "" \/ (truthy w = true /\ exists i, i < length hs /\ w = at_index row i).
Proof.
  induction hs as [| h hs IH] using rev_ind; intros Hw.
  - by apply elem_of_nil in Hw.
  - rewrite xlsx_row_snoc in Hw. apply obj_set_values in Hw as [-> | Hw].
    + unfold js_or. destruct (truthy (at_index row (length hs))) eqn:Ht;
        [right | by left].
      split; [done |]. exists (length hs). rewrite length_app; simpl.
      split; [lia | done].
    + destruct (IH Hw) as [-> | (Ht & i & Hi & ->)]; [by left | right].
      split; [done |]. exists i. rewrite length_app; simpl. split; [lia | done].
Qed.

Lemma xlsx_row_blank hs row :
  (forall i, i < length hs -> truthy (at_index row i) = false) ->
  forall w, w ∈ Object_values (xlsx_row hs row) -> w = JStr "".
Proof.
  induction hs as [| h hs IH] using rev_ind; intros Hfalsy w Hw.
  - by apply elem_of_nil in Hw.
  - rewrite xlsx_row_snoc in Hw. apply obj_set_values in Hw as [-> | Hw].
    + unfold js_or. rewrite Hfalsy; [done |]. rewrite length_app; simpl; lia.
    + apply IH; [| done]. intros i Hi. apply Hfalsy.
      rewrite length_app; simpl; lia.
Qed.

Lemma xlsx_keep_blank o :
  (forall w, w ∈ Object_values o -> w = JStr "") -> xlsx_keep o = false.
Proof.
  intros Hall. unfold xlsx_keep. apply not_true_is_false. intros Hex.
  apply existsb_exists in Hex as (w & Hw & Hk).
  apply list_elem_of_In, Hall in Hw. by subst.
Qed.

(** C10.  In the XLSX/XLS branch of [processFile] the value that the row
    object is given for a header is [row[index] || '']: a cell that is
    falsy (the number 0 or -0, NaN, [false], the empty string, null, or a
    cell that is missing) is replaced by the empty string, so that every
    value of the row object is the empty string or a truthy cell, and the
    property of a header, read back, holds that value (the assignment to a
    header named [__proto__] creates no property to read).  A data row
    whose cells under the headers are all falsy, all zeros or all [false]
    for instance, has only empty strings as values, fails the test of the
    filter and is absent from the rows returned. *)
Theorem C10_falsy_cells_are_blank (hs : list string) (row : list JsValue) :
  (forall i h, NoDup hs -> hs !! i = Some h -> h <> "__proto__" ->
     obj_get h (xlsx_row hs row)
     = Some (if truthy (at_index row i) then at_index row i else JStr ""))
  /\ (forall w, w ∈ Object_values (xlsx_row hs row) ->
        w = JStr ""
        \/ (truthy w = true /\ exists i, i < length hs /\ w = at_index row i))
  /\ (truthy (JNum 0%float) = false /\ truthy (JNum (-0)%float) = false
      /\ truthy (JNum nan) = false /\ truthy (JBool false) = false
      /\ truthy (JStr "") = false /\ truthy JNull = false
      /\ truthy JUndefined = false)
  /\ ((forall i, i < length hs -> truthy (at_index row i) = false) ->
      (forall w, w ∈ Object_values (xlsx_row hs row) -> w = JStr "")
      /\ xlsx_keep (xlsx_row hs row) = false
      /\ forall before after,
          xlsx_data hs (before ++ row :: after) = xlsx_data hs (before ++ after))
  /\ processFile (Reference.platform zeros_workbook Reference.no_json
                                     Reference.no_print)
                 (Reference.text_file "zeros.xlsx" "")
     = succeeded (Reference.text_file "zeros.xlsx" "")
                 [JObj [("a", JNum 1%float); ("b", JNum 2%float)]] ["a"; "b"].
Proof.
  split; [| split; [| split; [| split]]].
  - intros i h Hnd Hi Hh. by apply xlsx_row_get.
  - apply xlsx_row_values.
  - repeat split; reflexivity.
  - intros Hfalsy.
    pose proof (xlsx_row_blank hs row Hfalsy) as Hblank.
    pose proof (xlsx_keep_blank _ Hblank) as Hkeep.
    split; [exact Hblank | split; [exact Hkeep |]].
    intros before after. unfold xlsx_data.
    rewrite !List.map_app, !List.filter_app. simpl. by rewrite Hkeep.
  - reflexivity.
Qed.

Lemma C10_zero_row_witness :
  xlsx_keep (xlsx_row ["a"; "b"] [JNum 0%float; JNum 0%float]) = false
  /\ xlsx_data ["a"; "b"] (drop 1 zeros_sheet)
     = xlsx_data ["a"; "b"] [[JNum 1%float; JNum 2%float]; [JBool false; JBool false]].
Proof.
  destruct (C10_falsy_cells_are_blank ["a"; "b"] [JNum 0%float; JNum 0%float])
    as (_ & _ & _ & Hrow & _).
  assert (forall i, i < length ["a"; "b"] ->
                    truthy (at_index [JNum 0%float; JNum 0%float] i) = false)
    as Hfalsy.
  { intros [| [| i]] Hi; [reflexivity | reflexivity | simpl in Hi; lia]. }
  destruct (Hrow Hfalsy) as (_ & Hkeep & Hdrop).
  split; [exact Hkeep | exact (Hdrop [] _)].
Defined.

(** ** Headers *)

Lemma dropSpaces_spec l :
  exists pre,
    l = (pre ++ dropSpaces l)%list
    /\ Forall (fun c => isWhiteSpace c = true) pre
    /\ forall c, head (dropSpaces l) = Some c -> isWhiteSpace c = false.
Proof.
  induction l as [| c l (pre & Hl & Hpre & Hhead)]; simpl.
  - exists []. repeat split; [constructor | discriminate].
  - destruct (isWhiteSpace c) eqn:Hc.
    + exists (c :: pre). simpl. rewrite <- Hl. repeat split; [by constructor | done].
    + exists []. repeat split; [constructor |]. simpl. by intros ? [= <-].
Qed.

Lemma String_trim_spec s : trimmed_of s (String_trim s).
Proof.
  unfold trimmed_of, String_trim.
  rewrite list_ascii_of_string_of_list_ascii.
  destruct (dropSpaces_spec (list_ascii_of_string s)) as (pre & Hl & Hpre & Hhead).
  set (l1 := dropSpaces (list_ascii_of_string s)) in *.
  destruct (dropSpaces_spec (reverse l1)) as (post & Hr & Hpost & Hlast).
  set (r2 := dropSpaces (reverse l1)) in *.
  assert (l1 = (reverse r2 ++ reverse post)%list) as Hl1.
  { rewrite <- reverse_app, <- Hr. by rewrite reverse_involutive. }
  exists pre, (reverse post). split; [by rewrite <- Hl1 |].
  split; [done |]. split; [by apply Forall_reverse |]. split.
  - intros c Hc. apply Hhead. rewrite Hl1.
    destruct (reverse r2); [done | by simpl in *].
  - intros c Hc. apply Hlast. by rewrite last_reverse in Hc.
Qed.

Lemma filter_nonempty (l : list string) :
  List.filter (fun h => negb (String.eqb h "")) l = filter (fun h => h <> "") l.
Proof.
  induction l as [| h l IH]; [done |]. simpl. rewrite filter_cons, IH.
  destruct (String.eqb_spec h "") as [Heq | Hne]; case_decide; simpl;
    congruence.
Qed.

Section Headers.
Variable P : Platform.

Lemma processFile_succeeded f rs hdrs :
  processFile P f = succeeded f rs hdrs -> processFile_parse P f = Ok (rs, hdrs).
Proof.
  intros Hs.
  destruct (processFile_try_cases P f) as [(r & h & Ht & Hp & _) | [msg Ht]].
  - rewrite (processFile_ok _ _ _ _ Ht) in Hs. by injection Hs as -> ->.
  - rewrite (processFile_throw _ _ _ Ht) in Hs. discriminate.
Qed.

Lemma processFile_parse_xlsx f :
  extension_of f = Some "xlsx" \/ extension_of f = Some "xls" ->
  processFile_parse P f = processFile_xlsx P f.
Proof.
  intros He. unfold processFile_parse. rewrite lower_extension_eq.
  by destruct He as [-> | ->].
Qed.

(** C7, as the code has it.  When [processFile] succeeds on an XLSX or XLS
    file, the header list is made of the cells of the first row of the first
    sheet, each converted to a string and stripped of its surrounding white
    space, the empty ones left out, in their order.  When it succeeds on a
    CSV file, the header list is the field list that the parser reports,
    as it is: [processFile] neither trims it nor drops its empty names. *)
Theorem C7_processFile_headers (f : File) (rs : list JsValue)
        (hdrs : list string) :
  processFile P f = succeeded f rs hdrs ->
  (extension_of f = Some "xlsx" \/ extension_of f = Some "xls" ->
   exists bytes workbook first rest,
     contents f = Ok bytes
     /\ XLSX_read P bytes = Ok workbook
     /\ sheet_to_json_arrays P (first_sheet P workbook) = first :: rest
     /\ hdrs = filter (fun h => h <> "")
                      ((fun cell => String_trim (String_of P cell)) <$> first)
     /\ (forall cell, trimmed_of (String_of P cell)
                                 (String_trim (String_of P cell)))
     /\ (forall h, h ∈ hdrs ->
           h <> "" /\ no_surrounding_space (list_ascii_of_string h)))
  /\ (extension_of f = Some "csv" ->
      exists text,
        contents f = Ok text
        /\ results_errors (Papa_parse P processFile_config text) = []
        /\ hdrs = default [] (meta_fields (Papa_parse P processFile_config text))).
Proof.
  intros Hs. apply processFile_succeeded in Hs. split.
  - intros He. rewrite (processFile_parse_xlsx _ He) in Hs.
    unfold processFile_xlsx in Hs.
    destruct (contents f) as [bytes | ?] eqn:Hc; [simpl in Hs | done].
    destruct (XLSX_read P bytes) as [workbook | ?] eqn:Hwb; [simpl in Hs | done].
    destruct (sheet_to_json_arrays P (first_sheet P workbook))
      as [| first rest] eqn:Hrows; [done |].
    injection Hs as _ <-.
    assert (xlsx_headers P first
            = filter (fun h => h <> "")
                     ((fun cell => String_trim (String_of P cell)) <$> first))
      as Hh by (unfold xlsx_headers; by rewrite filter_nonempty).
    exists bytes, workbook, first, rest.
    split; [done |]. split; [done |]. split; [done |]. split; [exact Hh |].
    split; [intros cell; apply String_trim_spec |].
    intros h Hin. rewrite Hh in Hin.
    apply list_elem_of_filter in Hin as [Hne Hin]. split; [exact Hne |].
    apply list_elem_of_fmap in Hin as (cell & -> & _).
    by destruct (String_trim_spec (String_of P cell)) as (? & ? & _ & _ & _ & ?).
  - intros He. rewrite (processFile_parse_csv _ _ He) in Hs.
    unfold processFile_csv in Hs.
    destruct (contents f) as [text | ?] eqn:Hc; [simpl in Hs | done].
    change {| header := true; skipEmptyLines := true; dynamicTyping := true |}
      with processFile_config in Hs.
    destruct (results_errors (Papa_parse P processFile_config text)) eqn:Herr;
      [| done].
    injection Hs as _ <-. by exists text.
Qed.
End Headers.

(** A header row with a padded name, an empty cell, a boolean cell and a
    name followed by a space: the headers are name, true and b. *)
Lemma C7_sheet_headers_witness :
  processFile (Reference.platform padded_workbook Reference.no_json
                                  Reference.no_print)
              (Reference.text_file "padded.xlsx" "")
  = succeeded (Reference.text_file "padded.xlsx" "")
              [JObj [("name", JStr "x"); ("true", JStr "y"); ("b", JStr "z")]]
              ["name"; "true"; "b"]
  /\ ["name"; "true"; "b"]
     = filter (fun h => h <> "")
              ((fun cell =>
                  String_trim
                    (String_of (Reference.platform padded_workbook
                                  Reference.no_json Reference.no_print) cell))
                 <$> [JStr " name "; JStr ""; JBool true; JStr "b "])
  /\ trimmed_of " name " "name".
Proof.
  assert (processFile (Reference.platform padded_workbook Reference.no_json
                                          Reference.no_print)
                      (Reference.text_file "padded.xlsx" "")
          = succeeded (Reference.text_file "padded.xlsx" "")
              [JObj [("name", JStr "x"); ("true", JStr "y"); ("b", JStr "z")]]
              ["name"; "true"; "b"]) as Hrun by reflexivity.
  destruct (C7_processFile_headers _ _ _ _ Hrun) as [Hxlsx _].
  destruct (Hxlsx (or_introl eq_refl))
    as (bytes & workbook & first & rest & _ & Hwb & Hrows & Hh & Htrim & _).
  injection Hwb as <-. simpl in Hrows. injection Hrows as <- <-.
  split; [exact Hrun |]. split; [exact Hh |].
  exact (Htrim (JStr " name ")).
Defined.

(** A CSV header line with padded names: [processFile] returns the names as
    the parser reports them, with their spaces. *)
Lemma C7_csv_headers_are_not_trimmed :
  processFile Reference.csv_platform
              (Reference.text_file "padded.csv" padded_header_csv_text)
  = succeeded (Reference.text_file "padded.csv" padded_header_csv_text)
              [JObj [(" a ", JNum 1%float); ("b", JNum 2%float)]] [" a "; "b"]
  /\ String_trim " a " = "a".
Proof. split; reflexivity. Qed.

(** ** Determinism *)

Section Determinism.
Variable P : Platform.

Lemma processFile_parse_ext f1 f2 :
  name f1 = name f2 -> contents f1 = contents f2 ->
  processFile_parse P f1 = processFile_parse P f2.
Proof.
  intros Hn Hc.
  unfold processFile_parse, lower_extension, processFile_csv, processFile_xlsx,
    processFile_json.
  by rewrite Hn, Hc.
Qed.

Lemma table_of_resolve_with now f sheet rs :
  table_of (resolve_with P now f sheet rs)
  = (cols ← columns_of rs;
     types ← analyzeDataTypes P rs;
     Ok (rs, cols, length rs, types)).
Proof.
  unfold resolve_with.
  destruct (columns_of rs) as [cols | ?]; [simpl | done].
  by destruct (analyzeDataTypes P rs).
Qed.

Lemma table_of_catch_as r msg :
  table_of (catch_as r msg) = catch_as (table_of r) msg.
Proof. by destruct r as [[? ?] | ?]. Qed.

Lemma table_of_bind {A : Type} (r : Result A) k :
  table_of (x ← r; k x) = (x ← r; table_of (k x)).
Proof. by destruct r. Qed.

Lemma table_of_parseFile now1 now2 f1 f2 :
  name f1 = name f2 -> contents f1 = contents f2 ->
  table_of (parseFile P now1 f1) = table_of (parseFile P now2 f2).
Proof.
  intros Hn Hc.
  assert (extension_of f1 = extension_of f2) as He
      by (unfold extension_of; by rewrite Hn).
  unfold parseFile. rewrite He.
  destruct (ext_is (extension_of f2) "csv").
  { unfold parseFile_csv. rewrite Hc.
    destruct (contents f2) as [text | ?]; [simpl | done].
    destruct (results_errors _); [| done].
    by rewrite !table_of_resolve_with. }
  destruct (ext_is (extension_of f2) "xlsx" || ext_is (extension_of f2) "xls").
  { unfold parseFile_xlsx. rewrite Hc.
    destruct (contents f2) as [bytes | ?]; [| done].
    rewrite !table_of_bind.
    destruct (XLSX_read P bytes) as [workbook | ?]; [simpl | done].
    by rewrite !table_of_resolve_with. }
  destruct (ext_is (extension_of f2) "json"); [| done].
  unfold parseFile_json. rewrite Hc.
  destruct (contents f2) as [text | ?]; [| done].
  rewrite !table_of_catch_as, !table_of_bind.
  destruct (JSON_parse P text) as [root | ?]; [simpl | done].
  by rewrite !table_of_resolve_with.
Qed.

Lemma resolve_with_uploadedAt now f sheet rs rs' md :
  resolve_with P now f sheet rs = Ok (rs', md) -> uploadedAt md = now.
Proof.
  unfold resolve_with.
  destruct (columns_of rs) as [cols | ?]; [simpl | done].
  destruct (analyzeDataTypes P rs) as [types | ?]; [simpl | done].
  by intros [= _ <-].
Qed.

Lemma parseFile_uploadedAt now f rs md :
  parseFile P now f = Ok (rs, md) -> uploadedAt md = now.
Proof.
  unfold parseFile.
  destruct (ext_is (extension_of f) "csv").
  { unfold parseFile_csv.
    destruct (contents f) as [text | ?]; [simpl | done].
    destruct (results_errors _); [| done]. apply resolve_with_uploadedAt. }
  destruct (ext_is (extension_of f) "xlsx" || ext_is (extension_of f) "xls").
  { unfold parseFile_xlsx.
    destruct (contents f) as [bytes | ?]; [| done].
    destruct (XLSX_read P bytes) as [workbook | ?]; [simpl | done].
    apply resolve_with_uploadedAt. }
  destruct (ext_is (extension_of f) "json"); [| done].
  unfold parseFile_json.
  destruct (contents f) as [text | ?]; [| done].
  destruct (JSON_parse P text) as [root | ?]; [simpl | done].
  destruct (resolve_with P now f None _) as [[rs0 md0] | ?] eqn:Hr; [simpl | done].
  intros [= _ <-]. by eapply resolve_with_uploadedAt.
Qed.

(** C9.  Two runs on the same file, that is on the same name and the same
    contents, give the same outcome: [processFile] returns the same rows,
    headers, status and message, and [parseFile], whatever the clock reads
    at each run, resolves with the same rows, columns, row count and
    detected types, or rejects with the same message.  The one place where
    a run leaves a trace of the moment is the [uploadedAt] field of the
    metadata of [parseFile], outside the rows and the columns. *)
Theorem C9_same_file_same_table (now1 now2 : string) (f1 f2 : File) :
  name f1 = name f2 ->
  contents f1 = contents f2 ->
  (data (processFile P f1) = data (processFile P f2)
   /\ headers (processFile P f1) = headers (processFile P f2)
   /\ status (processFile P f1) = status (processFile P f2)
   /\ error (processFile P f1) = error (processFile P f2))
  /\ table_of (parseFile P now1 f1) = table_of (parseFile P now2 f2)
  /\ (forall rs md, parseFile P now1 f1 = Ok (rs, md) -> uploadedAt md = now1).
Proof.
  intros Hn Hc. split; [| split].
  - unfold processFile, processFile_try.
    rewrite (processFile_parse_ext f1 f2 Hn Hc).
    by destruct (parsed ← processFile_parse P f2; processFile_checks parsed).
  - by apply table_of_parseFile.
  - apply parseFile_uploadedAt.
Qed.
End Determinism.

Lemma C9_two_runs_witness :
  table_of (parseFile Reference.csv_platform now0
              (Reference.text_file "rows.csv" blank_line_csv_text))
  = table_of (parseFile Reference.csv_platform "2030-06-15T12:00:00.000Z"
                (Reference.text_file "rows.csv" blank_line_csv_text)).
Proof.
  exact (proj1 (proj2 (C9_same_file_same_table Reference.csv_platform now0
                         "2030-06-15T12:00:00.000Z"
                         (Reference.text_file "rows.csv" blank_line_csv_text)
                         (Reference.text_file "rows.csv" blank_line_csv_text)
                         eq_refl eq_refl))).
Defined.

(** ** The drop handler and the file list of FileUploadZone.tsx *)

Lemma processFile_cases P f :
  (exists rows hdrs, processFile P f = succeeded f rows hdrs
                     /\ rows <> [] /\ hdrs <> [])
  \/ (exists msg, processFile P f = failed f msg).
Proof.
  destruct (processFile_try_cases P f) as [(r & h & Ht & _ & Hr & Hh) | [msg Ht]].
  - left. exists r, h. split; [by apply processFile_ok | done].
  - right. exists msg. by apply processFile_throw.
Qed.







Lemma filter_index_delete {A : Type} (l : list A) (k index : nat) :
  (List.filter (fun ix : nat * A => negb (Nat.eqb ix.1 index))
               (imap (fun j x => (k + j, x)) l)).*2
  = if decide (k <= index) then delete (index - k) l else l.
Proof.
  revert k. induction l as [| x l IH]; intros k.
  - simpl. by case_decide.
  - rewrite imap_cons.
    assert (imap ((fun j y => (k + j, y)) ∘ S) l
            = imap (fun j y => (S k + j, y)) l) as ->
        by (apply imap_ext; intros j y _; simpl; f_equal; lia).
    specialize (IH (S k)).
    remember (imap (fun j y => (S k + j, y)) l) as rest eqn:Hrest.
    set (p := fun ix : nat * A => negb (Nat.eqb ix.1 index)) in *.
    destruct (Nat.eqb_spec k index) as [Heq | Hne].
    + replace (List.filter p ((k + 0, x) :: rest)) with (List.filter p rest).
      2:{ simpl. unfold p at 2. simpl. rewrite Nat.add_0_r.
          destruct (Nat.eqb_spec k index); [done | lia]. }
      rewrite IH. subst k. rewrite Nat.sub_diag.
      repeat case_decide; try lia. done.
    + replace (List.filter p ((k + 0, x) :: rest))
        with ((k + 0, x) :: List.filter p rest).
      2:{ simpl. unfold p at 2. simpl. rewrite Nat.add_0_r.
          destruct (Nat.eqb_spec k index); [lia | done]. }
      rewrite fmap_cons, IH.
      repeat case_decide; try lia; [| done].
      replace (index - k) with (S (index - S k)) by lia. done.
Qed.


Lemma removeFile_delete index st :
  FileUploadZone.uploadedFiles (FileUploadZone.removeFile index st)
  = delete index (FileUploadZone.uploadedFiles st).
Proof.
  unfold FileUploadZone.removeFile. simpl.
  change (imap pair (FileUploadZone.uploadedFiles st))
    with (imap (fun j x => (0 + j, x)) (FileUploadZone.uploadedFiles st)).
  rewrite filter_index_delete. rewrite Nat.sub_0_r.
  case_decide; [done | lia].
Qed.

(** X3.  [removeFile(index)] takes out of the list the entry at [index]
    and no other: the entries before it stay, the entries after it move up
    by one place.  An index beyond the end of the list changes nothing, and
    [isProcessing] is left as it is. *)
Theorem X3_removeFile_removes_one (index : nat) (st : FileUploadZone.State) :
  FileUploadZone.uploadedFiles (FileUploadZone.removeFile index st)
  = (take index (FileUploadZone.uploadedFiles st)
     ++ drop (S index) (FileUploadZone.uploadedFiles st))%list
  /\ (index < length (FileUploadZone.uploadedFiles st) ->
      S (length (FileUploadZone.uploadedFiles
                   (FileUploadZone.removeFile index st)))
      = length (FileUploadZone.uploadedFiles st))
  /\ (length (FileUploadZone.uploadedFiles st) <= index ->
      FileUploadZone.removeFile index st = st)
  /\ (forall j, j < index ->
        FileUploadZone.uploadedFiles (FileUploadZone.removeFile index st) !! j
        = FileUploadZone.uploadedFiles st !! j)
  /\ (forall j, index <= j ->
        FileUploadZone.uploadedFiles (FileUploadZone.removeFile index st) !! j
        = FileUploadZone.uploadedFiles st !! S j)
  /\ FileUploadZone.isProcessing (FileUploadZone.removeFile index st)
     = FileUploadZone.isProcessing st.
Proof.
  rewrite removeFile_delete.
  split; [apply delete_take_drop |]. split; [| split; [| split; [| split]]].
  - intros Hlt. rewrite length_delete by (by apply lookup_lt_is_Some).
    lia.
  - intros Hge. destruct st as [files busy].
    unfold FileUploadZone.removeFile. simpl in *. f_equal.
    pose proof (removeFile_delete index
                  {| FileUploadZone.uploadedFiles := files;
                     FileUploadZone.isProcessing := busy |}) as Hd.
    simpl in Hd. unfold FileUploadZone.removeFile in Hd. simpl in Hd.
    rewrite Hd, delete_take_drop.
    rewrite take_ge by lia. rewrite drop_ge by lia. apply app_nil_r.
  - intros j Hj. by apply list_lookup_delete_lt.
  - intros j Hj. by apply list_lookup_delete_ge.
  - done.
Qed.


(** ** The handlers of the enterprise upload zone *)

Lemma resolve_with_shape P now f sheet rs d md :
  resolve_with P now f sheet rs = Ok (d, md) ->
  d = rs /\ rows md = length rs /\ filename md = name f /\ md_size md = size f
  /\ md_type md = extension_of f
  /\ columns_of rs = Ok (columns md)
  /\ analyzeDataTypes P rs = Ok (detectedTypes md).
Proof.
  unfold resolve_with.
  destruct (columns_of rs) as [cols | ?]; [simpl | done].
  destruct (analyzeDataTypes P rs) as [types | ?]; [simpl | done].
  by intros [= <- <-].
Qed.

Lemma parseFile_resolved P now f d md :
  parseFile P now f = Ok (d, md) ->
  exists sheet rs, resolve_with P now f sheet rs = Ok (d, md).
Proof.
  unfold parseFile.
  destruct (ext_is (extension_of f) "csv").
  { unfold parseFile_csv.
    destruct (contents f) as [text | ?]; [simpl | done].
    destruct (results_errors _); [| done]. by eauto. }
  destruct (ext_is (extension_of f) "xlsx" || ext_is (extension_of f) "xls").
  { unfold parseFile_xlsx.
    destruct (contents f) as [bytes | ?]; [| done].
    destruct (XLSX_read P bytes) as [workbook | ?]; [simpl | done]. by eauto. }
  destruct (ext_is (extension_of f) "json"); [| done].
  unfold parseFile_json.
  destruct (contents f) as [text | ?]; [| done].
  destruct (JSON_parse P text) as [root | ?]; [simpl | done].
  destruct (resolve_with P now f None _) as [[rs0 md0] | ?] eqn:Hr; [simpl | done].
  intros [= <- <-]. by eauto.
Qed.

(** X5.  The drop handler of the enterprise upload zone parses the first
    dropped file and ignores the others; an empty drop does nothing.  When
    [parseFile] rejects, the status goes back to idle, the error toast is
    shown and [onFileUpload] is not called.  When it resolves, the status
    goes through parsing, analyzing and complete and [onFileUpload] is
    called once with the rows and the metadata; if it returns, the success
    toast follows, whose count is the [rows] field of the metadata, and the
    status stays complete if the toast returns too.  If [onFileUpload] or
    the success toast throws, the catch block sets the status back to idle
    and shows the error toast.  So the status ends at complete exactly when
    [parseFile] resolves and both calls return, and at idle otherwise:
    never at parsing or analyzing. *)
Theorem X5_enterprise_drop_outcome (P : Platform) (now : string)
        (cb : EnterpriseUploadZone.Callbacks) (f : File)
        (others : list File) (initial : EnterpriseUploadZone.ProcessingStatus) :
  EnterpriseUploadZone.onDrop P now cb (f :: others)
  = EnterpriseUploadZone.onDrop P now cb [f]
  /\ EnterpriseUploadZone.effects (EnterpriseUploadZone.onDrop P now cb []) = []
  /\ (forall msg,
        parseFile P now f = Throw msg ->
        EnterpriseUploadZone.effects
          (EnterpriseUploadZone.onDrop P now cb (f :: others))
        = [EnterpriseUploadZone.setUploadedFile f;
           EnterpriseUploadZone.setProcessingStatus EnterpriseUploadZone.parsing;
           EnterpriseUploadZone.setProcessingStatus EnterpriseUploadZone.idle;
           EnterpriseUploadZone.toast_error_failed
             (EnterpriseUploadZone.rejected msg)])
  /\ (forall d md,
        parseFile P now f = Ok (d, md) ->
        EnterpriseUploadZone.success_text f d
        = "Successfully processed " +:+ pretty (rows md)
          +:+ " records from " +:+ filename md
        /\ (EnterpriseUploadZone.onFileUpload_prop cb d md = None ->
            EnterpriseUploadZone.toast_success_call cb
              (EnterpriseUploadZone.success_text f d) = None ->
            EnterpriseUploadZone.onDrop P now cb (f :: others)
            = {| EnterpriseUploadZone.effects :=
                   (EnterpriseUploadZone.until_onFileUpload f d md
                    ++ [EnterpriseUploadZone.toast_success
                          (EnterpriseUploadZone.success_text f d)])%list;
                 EnterpriseUploadZone.rejection := None |})
        /\ (forall t,
              EnterpriseUploadZone.onFileUpload_prop cb d md = Some t ->
              EnterpriseUploadZone.effects
                (EnterpriseUploadZone.onDrop P now cb (f :: others))
              = (EnterpriseUploadZone.until_onFileUpload f d md
                 ++ [EnterpriseUploadZone.setProcessingStatus
                       EnterpriseUploadZone.idle;
                     EnterpriseUploadZone.toast_error_failed
                       (EnterpriseUploadZone.threw t)])%list)
        /\ (forall t,
              EnterpriseUploadZone.onFileUpload_prop cb d md = None ->
              EnterpriseUploadZone.toast_success_call cb
                (EnterpriseUploadZone.success_text f d) = Some t ->
              EnterpriseUploadZone.effects
                (EnterpriseUploadZone.onDrop P now cb (f :: others))
              = (EnterpriseUploadZone.until_onFileUpload f d md
                 ++ [EnterpriseUploadZone.toast_success
                       (EnterpriseUploadZone.success_text f d);
                     EnterpriseUploadZone.setProcessingStatus
                       EnterpriseUploadZone.idle;
                     EnterpriseUploadZone.toast_error_failed
                       (EnterpriseUploadZone.threw t)])%list))
  /\ (EnterpriseUploadZone.status_after initial
        (EnterpriseUploadZone.effects
           (EnterpriseUploadZone.onDrop P now cb (f :: others)))
      = EnterpriseUploadZone.complete
      <-> exists d md,
          parseFile P now f = Ok (d, md)
          /\ EnterpriseUploadZone.onFileUpload_prop cb d md = None
          /\ EnterpriseUploadZone.toast_success_call cb
               (EnterpriseUploadZone.success_text f d) = None)
  /\ (EnterpriseUploadZone.status_after initial
        (EnterpriseUploadZone.effects
           (EnterpriseUploadZone.onDrop P now cb (f :: others)))
      = EnterpriseUploadZone.complete
      \/ EnterpriseUploadZone.status_after initial
           (EnterpriseUploadZone.effects
              (EnterpriseUploadZone.onDrop P now cb (f :: others)))
         = EnterpriseUploadZone.idle).
Proof.
  split; [done |]. split; [done |].
  unfold EnterpriseUploadZone.onDrop.
  destruct (parseFile P now f) as [[d md] | msg] eqn:Hp.
  - cbn [fst snd].
    split; [done |]. split; [| split].
    + intros d' md' [= <- <-].
      destruct (parseFile_resolved _ _ _ _ _ Hp) as (sheet & rs & Hr).
      destruct (resolve_with_shape _ _ _ _ _ _ _ Hr) as (-> & Hrows & Hname & _).
      split; [unfold EnterpriseUploadZone.success_text; by rewrite Hrows, Hname |].
      split; [by intros -> -> |].
      split; [by intros t -> |]. by intros t -> ->.
    + destruct (EnterpriseUploadZone.onFileUpload_prop cb d md) as [t |] eqn:Hu.
      * simpl. split; [done |]. intros (d' & md' & [= <- <-] & Hu' & _). congruence.
      * destruct (EnterpriseUploadZone.toast_success_call cb
                    (EnterpriseUploadZone.success_text f d)) as [t |] eqn:Ht.
        -- simpl. split; [done |].
           intros (d' & md' & [= <- <-] & _ & Ht'). congruence.
        -- simpl. split; [| done]. intros _. by exists d, md.
    + destruct (EnterpriseUploadZone.onFileUpload_prop cb d md) as [t |];
        [by right |].
      destruct (EnterpriseUploadZone.toast_success_call cb
                  (EnterpriseUploadZone.success_text f d)); [by right | by left].
  - split; [by intros msg' [= <-] |]. split; [done |]. split; [| by right].
    simpl. split; [done |]. by intros (d & md & ? & _).
Qed.

Lemma dropSpaces_blank l :
  Forall (fun c => isWhiteSpace c = true) l -> dropSpaces l = [].
Proof.
  induction 1 as [| c l Hc _ IH]; [done |]. simpl. by rewrite Hc.
Qed.

Lemma String_trim_empty s : String_trim s = "" <-> blank_text s.
Proof.
  unfold blank_text. split.
  - intros Ht. destruct (String_trim_spec s) as (pre & post & Hs & Hpre & Hpost & _).
    rewrite Ht in Hs. simpl in Hs. rewrite Hs. by apply Forall_app.
  - intros Hall. unfold String_trim. by rewrite (dropSpaces_blank _ Hall).
Qed.

Lemma String_trim_eqb s :
  String.eqb (String_trim s) "" = true <-> blank_text s.
Proof. by rewrite String.eqb_eq, String_trim_empty. Qed.

Lemma append_cons c (s t : string) : String c s +:+ t = String c (s +:+ t).
Proof. reflexivity. Qed.

Lemma append_empty_r (s : string) : s +:+ "" = s.
Proof.
  induction s as [| c s IH]; [reflexivity |]. by rewrite append_cons, IH.
Qed.

Lemma length_append (s t : string) :
  String.length (s +:+ t) = String.length s + String.length t.
Proof.
  induction s as [| c s IH]; [reflexivity |].
  rewrite append_cons. simpl. by rewrite IH.
Qed.


(** X7.  The enhanced prompt that [handleDescriptionSubmit] passes on
    always begins with the description.  It is the description itself when
    the enhancement is blank; otherwise it is the description, a blank
    line, the words "Additional requirements: " and the enhancement as
    typed, white space included. *)
Theorem X7_enhanced_prompt (description enhancement enhanced : string) :
  EnterpriseUploadZone.onDescriptionSubmit description enhanced
  ∈ EnterpriseUploadZone.handleDescriptionSubmit description enhancement ->
  (exists rest, enhanced = description +:+ rest)
  /\ (blank_text enhancement -> enhanced = description)
  /\ (~ blank_text enhancement ->
      enhanced = description +:+ EnterpriseUploadZone.requirements_separator
                 +:+ enhancement
      /\ enhanced <> description).
Proof.
  unfold EnterpriseUploadZone.handleDescriptionSubmit.
  destruct (String.eqb (String_trim description) "").
  { intros Hin. apply list_elem_of_singleton in Hin. discriminate. }
  destruct (String.eqb (String_trim enhancement) "") eqn:He; simpl; intros Hin.
  - apply String_trim_eqb in He.
    apply elem_of_cons in Hin as [[= ->] | Hin];
      [| apply list_elem_of_singleton in Hin; discriminate].
    split; [exists ""; by rewrite append_empty_r |]. split; [done | done].
  - assert (~ blank_text enhancement) as Hnb.
    { intros Hb. apply String_trim_eqb in Hb. congruence. }
    apply elem_of_cons in Hin as [[= ->] | Hin];
      [| apply list_elem_of_singleton in Hin; discriminate].
    split.
    { exists (EnterpriseUploadZone.requirements_separator +:+ enhancement).
      reflexivity. }
    split; [done |]. intros _. split; [reflexivity |].
    intros Heq. apply (f_equal String.length) in Heq.
    rewrite !length_append in Heq. simpl in Heq. lia.
Qed.

(** ** The parser of the data generator beside the enterprise one *)

Section Generator.
Variable P : Platform.

Lemma parseFile_json_branch now f :
  extension_of f = Some "json" -> parseFile P now f = parseFile_json P now f.
Proof. intros He. unfold parseFile. by rewrite He. Qed.

Lemma generator_json_branch f :
  extension_of f = Some "json" ->
  EnhancedDataGenerator.parseFile P f = EnhancedDataGenerator.parseFile_json P f.
Proof. intros He. unfold EnhancedDataGenerator.parseFile. by rewrite He. Qed.

(** X8.  On a JSON file the parser of the data generator resolves for every
    text that [JSON.parse] accepts, with the elements of an array root or
    with the root alone in a one-element list, and rejects a text that
    [JSON.parse] refuses as "Invalid JSON format".  Whenever the enterprise
    [parseFile] resolves on the file, the generator's resolves with the
    same rows; the converse fails on a null root, which the generator
    returns as the row list [null] and the enterprise parser rejects. *)
Theorem X8_generator_json (now : string) (f : File) (text : string) :
  extension_of f = Some "json" ->
  contents f = Ok text ->
  (forall root, JSON_parse P text = Ok root ->
     EnhancedDataGenerator.parseFile P f
     = Ok (match root with JArr elems => elems | _ => [root] end))
  /\ (forall msg, JSON_parse P text = Throw msg ->
        EnhancedDataGenerator.parseFile P f = Throw "Invalid JSON format"
        /\ parseFile P now f = Throw "Invalid JSON format")
  /\ (forall d md, parseFile P now f = Ok (d, md) ->
        EnhancedDataGenerator.parseFile P f = Ok d)
  /\ (JSON_parse P text = Ok JNull ->
      EnhancedDataGenerator.parseFile P f = Ok [JNull]
      /\ parseFile P now f = Throw "Invalid JSON format").
Proof.
  intros He Hc.
  rewrite (parseFile_json_branch _ _ He), (generator_json_branch _ He).
  unfold parseFile_json, EnhancedDataGenerator.parseFile_json. rewrite Hc.
  split; [| split; [| split]].
  - by intros root ->.
  - by intros msg ->.
  - intros d md. destruct (JSON_parse P text) as [root | ?]; [simpl | done].
    destruct (resolve_with P now f None _) as [[d0 md0] | ?] eqn:Hr; [simpl | done].
    intros [= <- <-].
    by destruct (resolve_with_shape _ _ _ _ _ _ _ Hr) as (-> & _).
  - by intros ->.
Qed.

Lemma clean_keep_generator row :
  clean_keep row = true -> EnhancedDataGenerator.xlsx_keep row = true.
Proof.
  unfold clean_keep, EnhancedDataGenerator.xlsx_keep.
  rewrite !existsb_exists. intros (v & Hv & Hk). exists v. split; [done |].
  by destruct v as [| | | | s | |]; simpl in *; try done; destruct (String.eqb s "").
Qed.

Lemma filter_clean_generator (l : list Obj) :
  List.filter clean_keep (List.filter EnhancedDataGenerator.xlsx_keep l)
  = List.filter clean_keep l.
Proof.
  induction l as [| row l IH]; [done |]. simpl.
  destruct (EnhancedDataGenerator.xlsx_keep row) eqn:Hg; simpl.
  - by rewrite IH.
  - destruct (clean_keep row) eqn:Hk; [| done].
    apply clean_keep_generator in Hk. congruence.
Qed.

(** X9.  On an XLSX or XLS file the two parsers read the same sheet and
    fail alike: when the generator's rejects, the enterprise [parseFile]
    rejects with the same message.  When the generator's resolves, the
    enterprise one resolves too, with the generator's rows less those
    whose fields are all empty, null or undefined, in the same order: the
    enterprise filter also treats undefined as blank. *)
Theorem X9_generator_xlsx (now : string) (f : File) :
  extension_of f = Some "xlsx" \/ extension_of f = Some "xls" ->
  (forall msg, EnhancedDataGenerator.parseFile P f = Throw msg ->
     parseFile P now f = Throw msg)
  /\ (forall rs, EnhancedDataGenerator.parseFile P f = Ok rs ->
        exists kept md,
          rs = JObj <$> kept
          /\ parseFile P now f = Ok (JObj <$> List.filter clean_keep kept, md)
          /\ sublist (List.filter clean_keep kept) kept
          /\ forall row, row ∈ kept ->
               (row ∈ List.filter clean_keep kept <-> ~ blank_row row)).
Proof.
  intros He.
  assert (ext_is (extension_of f) "csv" = false
          /\ ext_is (extension_of f) "xlsx" || ext_is (extension_of f) "xls" = true)
    as [Hcsv Hx] by (by destruct He as [-> | ->]).
  unfold EnhancedDataGenerator.parseFile, parseFile. rewrite Hcsv, Hx.
  unfold EnhancedDataGenerator.parseFile_xlsx, parseFile_xlsx.
  destruct (contents f) as [bytes | ?]; [| split; [by intros ? [= <-] | done]].
  destruct (XLSX_read P bytes) as [workbook | m]; simpl;
    [| split; [by intros ? [= <-] | done]].
  split; [done |]. intros rs [= <-].
  set (jsonData := sheet_to_json P (first_sheet P workbook)).
  destruct (resolve_with_objects P now f (head (SheetNames workbook))
              (List.filter clean_keep jsonData)) as (md & Hres & _).
  exists (List.filter EnhancedDataGenerator.xlsx_keep jsonData), md.
  split; [done |]. rewrite filter_clean_generator. split; [exact Hres |].
  rewrite <- (filter_clean_generator jsonData).
  split; [apply filter_sublist |].
  intros row Hrow. rewrite filter_elem_of, clean_keep_true. tauto.
Qed.
End Generator.

(** ** The extension, characterised *)

Lemma split_nonempty sep s : String_split sep s <> [].
Proof.
  destruct s as [| c s]; simpl; [done |].
  destruct (Ascii.eqb c sep); [done |].
  by destruct (String_split sep s).
Qed.

Lemma split_no_separator sep s :
  sep ∉ list_ascii_of_string s -> String_split sep s = [s].
Proof.
  induction s as [| c s IH]; [done |]. simpl. intros Hno.
  apply not_elem_of_cons in Hno as [Hne Hno].
  destruct (Ascii.eqb_spec c sep) as [-> | _]; [done |].
  by rewrite IH.
Qed.

Lemma split_two sep s1 s2 :
  2 <= length (String_split sep (s1 +:+ String sep s2)).
Proof.
  induction s1 as [| c s1 IH].
  - change ("" +:+ String sep s2) with (String sep s2). simpl.
    rewrite Ascii.eqb_refl. simpl.
    pose proof (split_nonempty sep s2).
    destruct (String_split sep s2); [done | simpl; lia].
  - rewrite append_cons. simpl.
    destruct (Ascii.eqb c sep); [simpl; lia |].
    destruct (String_split sep (s1 +:+ String sep s2)); simpl in *; lia.
Qed.

Lemma split_last sep s1 s2 :
  last (String_split sep (s1 +:+ String sep s2)) = last (String_split sep s2).
Proof.
  induction s1 as [| c s1 IH].
  - change ("" +:+ String sep s2) with (String sep s2). simpl.
    rewrite Ascii.eqb_refl.
    pose proof (split_nonempty sep s2).
    by destruct (String_split sep s2).
  - rewrite append_cons. simpl. rewrite <- IH.
    pose proof (split_two sep s1 s2) as Htwo.
    destruct (Ascii.eqb c sep).
    + destruct (String_split sep (s1 +:+ String sep s2)); simpl in *; [lia | done].
    + destruct (String_split sep (s1 +:+ String sep s2)) as [| seg [| seg' segs]];
        simpl in *; [lia | lia | done].
Qed.

(** X10.  The extension on which [parseFile] dispatches is the text after
    the last dot of the file name, put in lower case; the one on which
    [processFile] dispatches is the text after the last dot of the name
    put in lower case.  For both, a name without a dot is its own
    extension, so a file named "csv" is parsed as CSV, a name that ends
    with a dot has the empty extension, and the extension is never
    undefined. *)
Theorem X10_extension_is_last_dot_suffix (f : File) :
  (forall base ext,
      name f = base +:+ String "." ext ->
      "."%char ∉ list_ascii_of_string ext ->
      extension_of f = Some (toLowerCase ext))
  /\ ("."%char ∉ list_ascii_of_string (name f) ->
      extension_of f = Some (toLowerCase (name f)))
  /\ (forall base ext,
        toLowerCase (name f) = base +:+ String "." ext ->
        "."%char ∉ list_ascii_of_string ext ->
        lower_extension f = Some ext)
  /\ ("."%char ∉ list_ascii_of_string (toLowerCase (name f)) ->
      lower_extension f = Some (toLowerCase (name f)))
  /\ is_Some (extension_of f)
  /\ is_Some (lower_extension f)
  /\ (name f = "csv" ->
      ext_is (extension_of f) "csv" = true
      /\ ext_is (lower_extension f) "csv" = true)
  /\ (forall base, name f = base +:+ "." ->
        extension_of f = Some "" /\ lower_extension f = Some "").
Proof.
  assert (forall s, is_Some (last (String_split "." s))) as Hsome.
  { intros s0. pose proof (split_nonempty "." s0) as Hne.
    destruct (String_split "." s0) as [| seg segs] using rev_ind; [done |].
    rewrite last_snoc. by eexists. }
  unfold extension_of, lower_extension, Array_pop.
  split; [| split; [| split; [| split; [| split; [| split; [| split]]]]]].
  - intros base ext Hname Hno. rewrite Hname, split_last.
    by rewrite (split_no_separator _ _ Hno).
  - intros Hno. by rewrite (split_no_separator _ _ Hno).
  - intros base ext Hname Hno. rewrite Hname, split_last.
    by rewrite (split_no_separator _ _ Hno).
  - intros Hno. by rewrite (split_no_separator _ _ Hno).
  - destruct (Hsome (name f)) as [e ->]. by eexists.
  - apply Hsome.
  - by intros ->.
  - intros base Hname. rewrite Hname.
    assert (toLowerCase (base +:+ ".") = toLowerCase base +:+ ".") as ->.
    { clear. induction base as [| c base IH]; [done |].
      rewrite append_cons, !toLowerCase_cons, append_cons. by rewrite IH. }
    by rewrite !split_last.
Qed.

(** ** JSON tables in [processFile] *)

Lemma processFile_succeeded_nonempty P f rs hdrs :
  processFile P f = succeeded f rs hdrs -> rs <> [] /\ hdrs <> [].
Proof.
  intros Hs.
  destruct (processFile_cases P f) as [(r & h & Hs' & Hr & Hh) | [msg Hs']];
    rewrite Hs' in Hs; [by injection Hs as <- <- | discriminate].
Qed.

(** X11.  On a JSON file whose text parses, [processFile] succeeds in two
    cases only.  An array root whose first element is an object with at
    least one key (or a non-empty array) gives all the elements of the
    root as rows, unfiltered and unexamined beyond
    the first, and the keys of the first element as headers.  A single
    object with at least one key gives that object as the one row and its
    keys as headers.  Every other root fails: a number, a string or a
    boolean with "JSON must be an array or object"; an empty array with
    "File contains no data"; an array whose first element is a number, a
    string or a boolean, and an object or a first element without keys,
    with "Could not detect column headers"; a null root or first element
    with the TypeError of [Object.keys]. *)
Theorem X11_processFile_json_tables (P : Platform) (f : File) (text : string)
        (root : JsValue) :
  extension_of f = Some "json" ->
  contents f = Ok text ->
  JSON_parse P text = Ok root ->
  (root = JArr [] -> processFile P f = failed f "File contains no data")
  /\ (forall first rest,
        root = JArr (first :: rest) ->
        (typeof first <> ty_object ->
         processFile P f = failed f "Could not detect column headers")
        /\ (first = JNull -> processFile P f = failed f TypeError_not_object)
        /\ (forall keys,
              Object_keys first = Ok keys -> typeof first = ty_object ->
              (keys = [] ->
               processFile P f = failed f "Could not detect column headers")
              /\ (keys <> [] ->
                  processFile P f = succeeded f (first :: rest) keys)))
  /\ (forall o,
        root = JObj o ->
        (o = [] -> processFile P f = failed f "Could not detect column headers")
        /\ (o <> [] -> processFile P f = succeeded f [JObj o] o.*1))
  /\ (typeof root <> ty_object ->
      processFile P f = failed f "JSON must be an array or object")
  /\ (root = JNull -> processFile P f = failed f TypeError_not_object)
  /\ (forall rs hdrs,
        processFile P f = succeeded f rs hdrs ->
        (exists first rest,
            root = JArr (first :: rest) /\ typeof first = ty_object
            /\ Object_keys first = Ok hdrs /\ hdrs <> []
            /\ rs = first :: rest)
        \/ (exists o, root = JObj o /\ o <> [] /\ rs = [JObj o] /\ hdrs = o.*1)).
Proof.
  intros He Hc Hj.
  assert (processFile_try P f
          = parsed ← processFile_json P f; processFile_checks parsed) as Ht.
  { unfold processFile_try. by rewrite (processFile_parse_json _ _ He). }
  unfold processFile_json in Ht. rewrite Hc in Ht; simpl in Ht.
  rewrite Hj in Ht; simpl in Ht.
  split; [| split; [| split; [| split; [| split]]]].
  - intros ->. by apply processFile_throw.
  - intros first rest ->. split; [| split].
    + intros Hty. apply processFile_throw. rewrite Ht.
      by destruct first.
    + intros ->. by apply processFile_throw.
    + intros keys Hk Hty.
      assert (processFile_try P f = processFile_checks (first :: rest, keys)) as Ht'.
      { rewrite Ht. destruct (typeof first); try done. by rewrite Hk. }
      split.
      * intros ->. by apply processFile_throw.
      * intros Hne. apply processFile_ok. rewrite Ht'.
        unfold processFile_checks; simpl. by destruct keys.
  - intros o ->. simpl in Ht. split.
    + intros ->. by apply processFile_throw.
    + intros Hne. apply processFile_ok. rewrite Ht.
      unfold processFile_checks, Object_keys; simpl. by destruct o.
  - intros Hty. apply processFile_throw. rewrite Ht. by destruct root.
  - intros ->. by apply processFile_throw.
  - intros rs hdrs Hs.
    destruct (processFile_succeeded_nonempty _ _ _ _ Hs) as [Hrs Hhdrs].
    apply processFile_succeeded in Hs.
    rewrite (processFile_parse_json _ _ He) in Hs.
    unfold processFile_json in Hs. rewrite Hc in Hs; simpl in Hs.
    rewrite Hj in Hs; simpl in Hs.
    destruct root as [| | b | n | s0 | l | o]; simpl in Hs; try done.
    + destruct l as [| first rest]; [by injection Hs as <- |].
      left. exists first, rest.
      destruct (typeof first) eqn:Hty;
        try (injection Hs as <- <-; done).
      destruct (Object_keys first) as [keys |] eqn:Hk; [simpl in Hs | done].
      injection Hs as <- <-. done.
    + right. exists o. injection Hs as <- <-.
      split; [done |]. split; [| done]. intros ->. done.
Qed.

(** ** Workbooks in [processFile] *)















Lemma xlsx_data_no_headers rest : xlsx_data [] rest = [].
Proof. induction rest as [| row rest IH]; [done | exact IH]. Qed.



(** X13.  In the XLSX/XLS branch of [processFile], a sheet without any row
    fails with "Excel file is empty"; a sheet with a header row alone, or
    whose header cells are all empty once trimmed, fails with "File
    contains no data", whatever its data rows hold.  When the workbook
    decodes and the sheet has a row, the outcome is that failure or
    success: the failure "Could not detect column headers" does not come
    from this branch, because rows without headers are all blank. *)
Theorem X13_xlsx_failures (P : Platform) (f : File) (bytes : string)
        (workbook : WorkBook (WorkSheet P)) :
  extension_of f = Some "xlsx" \/ extension_of f = Some "xls" ->
  contents f = Ok bytes ->
  XLSX_read P bytes = Ok workbook ->
  (sheet_to_json_arrays P (first_sheet P workbook) = [] ->
   processFile P f = failed f "Excel file is empty")
  /\ (forall first rest,
        sheet_to_json_arrays P (first_sheet P workbook) = first :: rest ->
        (rest = [] -> processFile P f = failed f "File contains no data")
        /\ (xlsx_headers P first = [] ->
            processFile P f = failed f "File contains no data")
        /\ (processFile P f = failed f "File contains no data"
            \/ processFile P f
               = succeeded f (JObj <$> xlsx_data (xlsx_headers P first) rest)
                           (xlsx_headers P first))).
Proof.
  intros He Hc Hwb.
  assert (processFile_try P f
          = parsed ← processFile_xlsx P f; processFile_checks parsed) as Ht.
  { unfold processFile_try. by rewrite (processFile_parse_xlsx _ _ He). }
  unfold processFile_xlsx in Ht. rewrite Hc in Ht; simpl in Ht.
  rewrite Hwb in Ht; simpl in Ht.
  split.
  - intros Hrows. rewrite Hrows in Ht. by apply processFile_throw.
  - intros first rest Hrows. rewrite Hrows in Ht. simpl in Ht.
    unfold processFile_checks in Ht; simpl in Ht.
    split; [| split].
    + intros ->. by apply processFile_throw.
    + intros Hh. rewrite Hh, xlsx_data_no_headers in Ht.
      by apply processFile_throw.
    + destruct (xlsx_headers P first) as [| h hs] eqn:Hh.
      * left. rewrite xlsx_data_no_headers in Ht. by apply processFile_throw.
      * destruct (xlsx_data (h :: hs) rest) as [| o os] eqn:Hd.
        -- left. by apply processFile_throw.
        -- right. by apply processFile_ok.
Qed.

(** ** The metadata of [parseFile] and the failures of [analyzeDataTypes] *)

Lemma types_defined P entries acc key :
  (key ∈ entries.*1 /\ key <> "__proto__") \/ is_Some (acc !! key) ->
  is_Some (foldl (assign_type P) acc entries !! key).
Proof.
  revert acc. induction entries as [| [k v] rest IH]; intros acc Hk.
  - destruct Hk as [[Hk _] | Hk]; [by apply elem_of_nil in Hk | done].
  - simpl. apply IH. unfold assign_type; simpl.
    destruct (String.eqb_spec k "__proto__") as [-> | Hproto].
    + destruct Hk as [[Hk Hne] | Hk]; [| by right].
      rewrite fmap_cons in Hk. apply elem_of_cons in Hk as [Hk | Hk];
        [simpl in Hk; congruence | by left].
    + destruct (decide (k = key)) as [-> | Hne].
      * right. rewrite lookup_insert_eq. by eexists.
      * rewrite lookup_insert_ne by done.
        destruct Hk as [[Hk Hp] | Hk]; [| by right].
        rewrite fmap_cons in Hk. apply elem_of_cons in Hk as [Hk | Hk]; [| by left].
        simpl in Hk. congruence.
Qed.

Lemma types_keys P entries key :
  is_Some (foldl (assign_type P) ∅ entries !! key)
  <-> key ∈ entries.*1 /\ key <> "__proto__".
Proof.
  split.
  - intros Hs. apply types_domain in Hs as [Hin | Hs]; [done |].
    rewrite lookup_empty in Hs. by destruct Hs.
  - intros Hin. apply types_defined. by left.
Qed.

Lemma columns_match_types P rs cols types :
  columns_of rs = Ok cols ->
  analyzeDataTypes P rs = Ok types ->
  forall key, is_Some (types !! key) <-> key ∈ cols /\ key <> "__proto__".
Proof.
  unfold columns_of, analyzeDataTypes, Object_keys.
  destruct rs as [| first rs]; simpl.
  - intros [= <-] [= <-] key. apply (types_keys P [] key).
  - destruct first as [| | b | n | s | l | o]; simpl; try done.
    + unfold js_or; simpl. destruct b; simpl;
        intros [= <-] [= <-] key; apply (types_keys P [] key).
    + unfold js_or; simpl. destruct (negb (is_zero n || is_nan n)); simpl;
        intros [= <-] [= <-] key; apply (types_keys P [] key).
    + unfold js_or; simpl. destruct (String.eqb_spec s "") as [-> | Hne]; simpl;
        intros [= <-] [= <-] key;
        [apply (types_keys P [] key) | apply types_keys].
    + intros [= <-] [= <-] key; apply types_keys.
    + intros [= <-] [= <-] key; apply types_keys.
Qed.

(** X14.  Whenever [parseFile] resolves, its metadata describes the rows it
    returns: [rows] is their number, [detectedTypes] has a tag for the
    names in [columns] other than [__proto__] and for no other name,
    [filename], [size] and [type] are the name, the size and the extension
    of the file, the extension is one of csv, xlsx, xls and json, and
    [uploadedAt] is the reading of the clock.  An empty table has no
    column and no detected type. *)
Theorem X14_parseFile_metadata (P : Platform) (now : string) (f : File)
        (d : list JsValue) (md : Metadata) :
  parseFile P now f = Ok (d, md) ->
  rows md = length d
  /\ (forall key, is_Some (detectedTypes md !! key)
                  <-> key ∈ columns md /\ key <> "__proto__")
  /\ filename md = name f /\ md_size md = size f
  /\ md_type md = extension_of f
  /\ (exists e, md_type md = Some e /\ e ∈ accepted_extensions)
  /\ uploadedAt md = now
  /\ (d = [] -> columns md = [] /\ detectedTypes md = ∅).
Proof.
  intros Hp.
  destruct (parseFile_resolved _ _ _ _ _ Hp) as (sheet & rs & Hr).
  destruct (resolve_with_shape _ _ _ _ _ _ _ Hr)
    as (-> & Hrows & Hname & Hsize & Htype & Hcols & Htypes).
  split; [done |]. split; [by eapply columns_match_types |].
  split; [done |]. split; [done |]. split; [done |]. split; [| split].
  - rewrite Htype. unfold parseFile in Hp. unfold accepted_extensions.
    destruct (extension_of f) as [e |]; simpl in *; [| done].
    exists e. split; [done |].
    destruct (String.eqb e "csv") eqn:H1;
      [apply String.eqb_eq in H1; subst e; set_solver |].
    destruct (String.eqb e "xlsx") eqn:H2;
      [apply String.eqb_eq in H2; subst e; set_solver |].
    destruct (String.eqb e "xls") eqn:H3;
      [apply String.eqb_eq in H3; subst e; set_solver |].
    destruct (String.eqb e "json") eqn:H4;
      [apply String.eqb_eq in H4; subst e; set_solver | done].
  - by eapply resolve_with_uploadedAt.
  - intros ->. unfold columns_of in Hcols. simpl in Hcols.
    injection Hcols as <-. simpl in Htypes. by injection Htypes as <-.
Qed.

Lemma analyzeDataTypes_throws P rs :
  analyzeDataTypes P [] = Ok ∅
  /\ (forall msg,
        analyzeDataTypes P rs = Throw msg <->
        msg = TypeError_not_object
        /\ (head rs = Some JNull \/ head rs = Some JUndefined)).
Proof.
  split; [done |].
  intros msg. destruct rs as [| first rest]; simpl.
  - split; [done | by intros [_ [? | ?]]].
  - destruct first; simpl; split; try done;
      try (by intros [_ [? | ?]]);
      try (intros [= <-]; split; [done | by auto]);
      by intros [-> _].
Qed.

(** X15.  [analyzeDataTypes] fails in one case only, with the TypeError of
    [Object.entries]: when the table is not empty and its first row is null
    or undefined.  On an empty table it returns the empty map, and so it
    does when the first row is a number or a boolean; the rows after the
    first never make it fail. *)
Theorem X15_analyzeDataTypes_failures (P : Platform) (rs : list JsValue) :
  analyzeDataTypes P [] = Ok ∅
  /\ (forall msg,
        analyzeDataTypes P rs = Throw msg <->
        msg = TypeError_not_object
        /\ (head rs = Some JNull \/ head rs = Some JUndefined))
  /\ (forall n rest, analyzeDataTypes P (JNum n :: rest) = Ok ∅)
  /\ (forall b rest, analyzeDataTypes P (JBool b :: rest) = Ok ∅).
Proof.
  split; [done |]. split; [| done].
  intros msg. destruct rs as [| first rest]; simpl.
  - split; [done | by intros [_ [? | ?]]].
  - destruct first; simpl; split; try done;
      try (by intros [_ [? | ?]]);
      try (intros [= <-]; split; [done | by auto]);
      by intros [-> _].
Qed.

(** ** JSON tables in [parseFile], and how failures surface *)

Lemma columns_of_ok rs : exists cols, columns_of rs = Ok cols.
Proof.
  unfold columns_of, Object_keys, js_or.
  destruct rs as [| first rs]; simpl; [by eexists |].
  destruct (truthy first) eqn:Ht; simpl; [| by eexists].
  destruct first; simpl in *; try done; by eexists.
Qed.

(** X16.  On a JSON file whose text parses to an array, [parseFile]
    rejects, as "Invalid JSON format", exactly when the first element is
    null; otherwise it resolves with all the elements as rows, whatever
    they are, the empty array included, which gives an empty table.  More
    generally the outcome depends on the first row alone: the root when it
    is not an array, the first element when it is. *)
Theorem X16_parseFile_json_tables (P : Platform) (now : string) (f : File)
        (text : string) (root : JsValue) :
  extension_of f = Some "json" ->
  contents f = Ok text ->
  JSON_parse P text = Ok root ->
  (first_row_of root = Some JNull \/ first_row_of root = Some JUndefined ->
   parseFile P now f = Throw "Invalid JSON format")
  /\ (first_row_of root <> Some JNull -> first_row_of root <> Some JUndefined ->
      exists md,
        parseFile P now f
        = Ok (match root with JArr elems => elems | _ => [root] end, md))
  /\ (root = JArr [] ->
      exists md, parseFile P now f = Ok ([], md) /\ rows md = 0).
Proof.
  intros He Hc Hj.
  rewrite (parseFile_json_branch _ _ _ He).
  unfold parseFile_json. rewrite Hc, Hj. simpl.
  set (rs := match root with JArr elems => elems | _ => [root] end).
  assert (head rs = first_row_of root) as Hhead by (by destruct root).
  unfold resolve_with. destruct (columns_of_ok rs) as [cols ->]. simpl.
  pose proof (proj2 (analyzeDataTypes_throws P rs)) as Hfail.
  split; [| split].
  - intros Hnull. rewrite <- Hhead in Hnull.
    destruct (analyzeDataTypes P rs) as [types | msg] eqn:Ha; [| done].
    pose proof (proj2 (Hfail TypeError_not_object) (conj eq_refl Hnull)).
    discriminate.
  - intros Hn Hu. rewrite <- Hhead in Hn, Hu.
    destruct (analyzeDataTypes P rs) as [types | msg] eqn:Ha; simpl;
      [by eexists |].
    destruct (proj1 (Hfail msg) eq_refl) as [_ [? | ?]]; done.
  - intros ->. subst rs. simpl. by eexists.
Qed.

(** X17.  When the file cannot be read, [processFile] returns the failure
    with the message of the read error, for each of the four extensions.
    [parseFile] and the parser of the data generator pass the read error on
    for a CSV file, and replace it with "Failed to read Excel file" for a
    workbook and with "Failed to read JSON file" for a JSON file. *)
Theorem X17_unreadable_file (P : Platform) (now : string) (f : File)
        (msg : string) :
  contents f = Throw msg ->
  (forall e, extension_of f = Some e -> e ∈ accepted_extensions ->
     processFile P f = failed f msg)
  /\ (extension_of f = Some "csv" ->
      parseFile P now f = Throw msg
      /\ EnhancedDataGenerator.parseFile P f = Throw msg)
  /\ (extension_of f = Some "xlsx" \/ extension_of f = Some "xls" ->
      parseFile P now f = Throw "Failed to read Excel file"
      /\ EnhancedDataGenerator.parseFile P f = Throw "Failed to read Excel file")
  /\ (extension_of f = Some "json" ->
      parseFile P now f = Throw "Failed to read JSON file"
      /\ EnhancedDataGenerator.parseFile P f = Throw "Failed to read JSON file").
Proof.
  intros Hc. split; [| split; [| split]].
  - intros e He Hin. apply processFile_throw.
    unfold processFile_try, processFile_parse.
    rewrite lower_extension_eq, He.
    unfold processFile_csv, processFile_xlsx, processFile_json. rewrite Hc.
    unfold accepted_extensions in Hin.
    repeat (apply elem_of_cons in Hin as [-> | Hin]; [done |]).
    by apply elem_of_nil in Hin.
  - intros He. unfold parseFile, EnhancedDataGenerator.parseFile.
    rewrite He. simpl.
    unfold parseFile_csv, EnhancedDataGenerator.parseFile_csv.
    by rewrite Hc.
  - intros He. unfold parseFile, EnhancedDataGenerator.parseFile.
    unfold parseFile_xlsx, EnhancedDataGenerator.parseFile_xlsx. rewrite Hc.
    by destruct He as [-> | ->].
  - intros He. unfold parseFile, EnhancedDataGenerator.parseFile.
    rewrite He. simpl.
    unfold parseFile_json, EnhancedDataGenerator.parseFile_json.
    by rewrite Hc.
Qed.

(** X18.  When a parser refuses the contents, [processFile] returns the
    failure with the parser's own message: the message of the SyntaxError
    for a JSON text, the message of the decoding error for a workbook, and
    "CSV parsing error: " followed by the message of the first error for a
    CSV text, however many errors the parser reports.  For the workbook
    [parseFile] and the parser of the data generator reject with the same
    decoding message. *)
Theorem X18_parser_errors (P : Platform) (now : string) (f : File)
        (text : string) :
  contents f = Ok text ->
  (forall msg, extension_of f = Some "json" -> JSON_parse P text = Throw msg ->
     processFile P f = failed f msg)
  /\ (forall msg,
        extension_of f = Some "xlsx" \/ extension_of f = Some "xls" ->
        XLSX_read P text = Throw msg ->
        processFile P f = failed f msg
        /\ parseFile P now f = Throw msg
        /\ EnhancedDataGenerator.parseFile P f = Throw msg)
  /\ (forall e es,
        extension_of f = Some "csv" ->
        results_errors (Papa_parse P processFile_config text) = e :: es ->
        processFile P f = failed f ("CSV parsing error: " +:+ message e)).
Proof.
  intros Hc. split; [| split].
  - intros msg He Hj. apply processFile_throw.
    unfold processFile_try. rewrite (processFile_parse_json _ _ He).
    unfold processFile_json. by rewrite Hc; simpl; rewrite Hj.
  - intros msg He Hx. split; [| split].
    + apply processFile_throw.
      unfold processFile_try. rewrite (processFile_parse_xlsx _ _ He).
      unfold processFile_xlsx. by rewrite Hc; simpl; rewrite Hx.
    + unfold parseFile, parseFile_xlsx. rewrite Hc, Hx.
      by destruct He as [-> | ->].
    + unfold EnhancedDataGenerator.parseFile,
        EnhancedDataGenerator.parseFile_xlsx. rewrite Hc, Hx.
      by destruct He as [-> | ->].
  - intros e es He Herr. apply processFile_throw.
    unfold processFile_try. rewrite (processFile_parse_csv _ _ He).
    unfold processFile_csv. rewrite Hc. simpl.
    change {| header := true; skipEmptyLines := true; dynamicTyping := true |}
      with processFile_config.
    by rewrite Herr.
Qed.

(** X19.  In the enterprise upload zone, once the file is read and the
    parser accepts its contents (no error from the CSV parser, or a
    workbook that decodes), [parseFile] resolves, also when no row is left
    after the blank rows are dropped, and the drop handler calls
    [onFileUpload] with rows none of which is blank.  The drop then ends in
    the status complete exactly when [onFileUpload] and the success toast
    return; when one of them throws it ends in idle. *)
Theorem X19_accepted_contents_complete (P : Platform) (now : string)
        (cb : EnterpriseUploadZone.Callbacks)
        (f : File) (others : list File) (text : string)
        (initial : EnterpriseUploadZone.ProcessingStatus) :
  contents f = Ok text ->
  (extension_of f = Some "csv"
   /\ results_errors (Papa_parse P parseFile_config text) = []
   \/ (extension_of f = Some "xlsx" \/ extension_of f = Some "xls")
      /\ exists workbook, XLSX_read P text = Ok workbook) ->
  exists kept md,
    parseFile P now f = Ok (JObj <$> kept, md)
    /\ (forall row, row ∈ kept -> ~ blank_row row)
    /\ EnterpriseUploadZone.onFileUpload (JObj <$> kept) md
       ∈ EnterpriseUploadZone.effects
           (EnterpriseUploadZone.onDrop P now cb (f :: others))
    /\ (EnterpriseUploadZone.status_after initial
          (EnterpriseUploadZone.effects
             (EnterpriseUploadZone.onDrop P now cb (f :: others)))
        = EnterpriseUploadZone.complete
        <-> EnterpriseUploadZone.onFileUpload_prop cb (JObj <$> kept) md = None
            /\ EnterpriseUploadZone.toast_success_call cb
                 (EnterpriseUploadZone.success_text f (JObj <$> kept)) = None)
    /\ (EnterpriseUploadZone.status_after initial
          (EnterpriseUploadZone.effects
             (EnterpriseUploadZone.onDrop P now cb (f :: others)))
        <> EnterpriseUploadZone.complete ->
        EnterpriseUploadZone.status_after initial
          (EnterpriseUploadZone.effects
             (EnterpriseUploadZone.onDrop P now cb (f :: others)))
        = EnterpriseUploadZone.idle).
Proof.
  intros Hc Hcase.
  assert (exists kept md, parseFile P now f = Ok (JObj <$> kept, md)
                          /\ forall row, row ∈ kept -> ~ blank_row row)
    as (kept & md & Hp & Hkept).
  { unfold parseFile.
    destruct Hcase as [[He Herr] | [He [workbook Hwb]]].
    - rewrite He. simpl. unfold parseFile_csv. rewrite Hc. simpl.
      change {| header := true; skipEmptyLines := true; dynamicTyping := false |}
        with parseFile_config.
      rewrite Herr.
      destruct (resolve_with_objects P now f None
                  (List.filter clean_keep
                     (results_data (Papa_parse P parseFile_config text))))
        as (md & Hres & _).
      eexists _, md. split; [exact Hres |].
      intros row Hrow. apply filter_elem_of in Hrow as [_ Hk].
      by apply clean_keep_true.
    - assert (ext_is (extension_of f) "csv" = false
              /\ ext_is (extension_of f) "xlsx"
                 || ext_is (extension_of f) "xls" = true)
        as [-> ->] by (by destruct He as [-> | ->]).
      unfold parseFile_xlsx. rewrite Hc, Hwb. simpl.
      destruct (resolve_with_objects P now f (head (SheetNames workbook))
                  (List.filter clean_keep
                     (sheet_to_json P (first_sheet P workbook))))
        as (md & Hres & _).
      eexists _, md. split; [exact Hres |].
      intros row Hrow. apply filter_elem_of in Hrow as [_ Hk].
      by apply clean_keep_true. }
  exists kept, md. split; [done |]. split; [done |].
  unfold EnterpriseUploadZone.onDrop. rewrite Hp. cbn [fst snd].
  destruct (EnterpriseUploadZone.onFileUpload_prop cb (JObj <$> kept) md)
    as [t |] eqn:Hu.
  - simpl. split; [| split; [| done]].
    + do 5 apply list_elem_of_further. apply list_elem_of_here.
    + split; [done | by intros [? _]].
  - destruct (EnterpriseUploadZone.toast_success_call cb
                (EnterpriseUploadZone.success_text f (JObj <$> kept)))
      as [t |] eqn:Ht; simpl.
    + split; [| split; [| done]].
      * do 5 apply list_elem_of_further. apply list_elem_of_here.
      * split; [done | by intros [_ ?]].
    + split; [| split; [done | done]].
      do 5 apply list_elem_of_further. apply list_elem_of_here.
Qed.

(** ** The model store *)

Lemma ready_isReady st :
  ModelStore.isReady (ModelStore.modelStatus st) = Some true
  <-> ModelStore.ready st.
Proof.
  unfold ModelStore.modelStatus, ModelStore.ready. simpl.
  destruct (ModelStore.modelConfig st) as [m |]; simpl.
  - split.
    + intros [= Hr]. apply andb_true_iff in Hr as [Ha Hh].
      exists m. split; [done |]. split; [done |].
      by destruct (ModelStore.status (ModelStore.modelHealth st)).
    + intros (m' & [= <-] & Ha & Hh). by rewrite Ha, Hh.
  - split; [done | by intros (m' & ? & _)].
Qed.

(** X20.  [configureModelAtom] settles with both busy flags off, whether
    it succeeds or fails.  It succeeds exactly when the configuration call
    and the connection test both return; the store then holds the given
    configuration marked active, with the time of the test, and a healthy
    status, so the model is ready.  When either call throws, the rejection
    is the thrown value, the health goes offline with a message that quotes
    it, and the configuration that was stored before is left in place,
    though no longer ready. *)
Theorem X20_configureModel_outcomes (configured tested : ModelStore.Outcome)
        (testedAt checkedAt : string) (config : ModelStore.ModelConfig)
        (st : ModelStore.Store) :
  let settled :=
    ModelStore.configureModel configured tested testedAt checkedAt config st in
  ModelStore.isConfiguringModel settled.1 = false
  /\ ModelStore.isTestingModel settled.1 = false
  /\ ModelStore.isWorking (ModelStore.modelStatus settled.1) = false
  /\ (settled.2 = ModelStore.returns <->
      configured = ModelStore.returns /\ tested = ModelStore.returns)
  /\ (settled.2 = ModelStore.returns ->
      ModelStore.isReady (ModelStore.modelStatus settled.1) = Some true
      /\ ModelStore.modelConfig settled.1
         = Some {| ModelStore.provider := ModelStore.provider config;
                   ModelStore.model := ModelStore.model config;
                   ModelStore.apiKey := ModelStore.apiKey config;
                   ModelStore.endpoint := ModelStore.endpoint config;
                   ModelStore.isActive := true;
                   ModelStore.lastTested := Some testedAt;
                   ModelStore.performance := ModelStore.performance config |}
      /\ ModelStore.lastCheck (ModelStore.modelHealth settled.1) = checkedAt)
  /\ (forall rendered,
        settled.2 = ModelStore.throws rendered ->
        (configured = ModelStore.throws rendered
         \/ configured = ModelStore.returns
            /\ tested = ModelStore.throws rendered)
        /\ ModelStore.modelConfig settled.1 = ModelStore.modelConfig st
        /\ ModelStore.modelHealth settled.1
           = {| ModelStore.status := ModelStore.offline;
                ModelStore.message := "Configuration failed: " +:+ rendered;
                ModelStore.lastCheck := checkedAt |}
        /\ ModelStore.isReady (ModelStore.modelStatus settled.1)
           <> Some true).
Proof.
  cbv zeta. setoid_rewrite ready_isReady.
  unfold ModelStore.configureModel.
  destruct configured as [| e]; [destruct tested as [| e] |]; simpl.
  - split; [done |]. split; [done |]. split; [done |]. split; [done |].
    split; [| done]. intros _. split; [| done].
    eexists. by split.
  - split; [done |]. split; [done |]. split; [done |].
    split; [split; [done | by intros [_ ?]] |]. split; [done |].
    intros rendered [= <-]. split; [by right |]. split; [done |].
    split; [done |]. by intros (m & _ & _ & ?).
  - split; [done |]. split; [done |]. split; [done |].
    split; [split; [done | by intros [? _]] |]. split; [done |].
    intros rendered [= <-]. split; [by left |]. split; [done |].
    split; [done |]. by intros (m & _ & _ & ?).
Qed.

(** X21.  [testModelConnectionAtom] without a stored model throws "No model
    configured" and leaves the store as it is.  With a stored model it
    never changes the configuration, it turns the testing flag off, and the
    store is ready afterwards exactly when the test returns and the model
    is active; the health is healthy, "Connection test successful", when the
    test returns, and offline, "Connection test failed: " and the error,
    when it throws.  [removeModelAtom] empties the configuration and sets
    the health to offline, "Model removed", with the reading of the clock,
    and leaves the two flags as they are, so [isReady] is undefined and a
    test that follows throws "No model configured"; removing the model
    right after a successful configuration leaves no model. *)
Theorem X21_test_and_remove (tested : ModelStore.Outcome) (checkedAt : string)
        (st : ModelStore.Store) :
  (ModelStore.modelConfig st = None ->
   ModelStore.testModelConnection tested checkedAt st
   = (st, ModelStore.throws "Error: No model configured"))
  /\ (forall m,
        ModelStore.modelConfig st = Some m ->
        let settled := ModelStore.testModelConnection tested checkedAt st in
        ModelStore.modelConfig settled.1 = Some m
        /\ ModelStore.isTestingModel settled.1 = false
        /\ ModelStore.isConfiguringModel settled.1
           = ModelStore.isConfiguringModel st
        /\ settled.2 = tested
        /\ ModelStore.modelHealth settled.1
           = match tested with
             | ModelStore.returns =>
                 {| ModelStore.status := ModelStore.healthy;
                    ModelStore.message := "Connection test successful";
                    ModelStore.lastCheck := checkedAt |}
             | ModelStore.throws rendered =>
                 {| ModelStore.status := ModelStore.offline;
                    ModelStore.message :=
                      "Connection test failed: " +:+ rendered;
                    ModelStore.lastCheck := checkedAt |}
             end
        /\ (ModelStore.isReady (ModelStore.modelStatus settled.1) = Some true <->
            tested = ModelStore.returns /\ ModelStore.isActive m = true))
  /\ (ModelStore.modelConfig (ModelStore.removeModel checkedAt st) = None
      /\ ModelStore.modelHealth (ModelStore.removeModel checkedAt st)
         = {| ModelStore.status := ModelStore.offline;
              ModelStore.message := "Model removed";
              ModelStore.lastCheck := checkedAt |}
      /\ ModelStore.health
           (ModelStore.modelStatus (ModelStore.removeModel checkedAt st))
         = {| ModelStore.status := ModelStore.offline;
              ModelStore.message := "Model removed";
              ModelStore.lastCheck := checkedAt |}
      /\ ModelStore.isConfiguringModel (ModelStore.removeModel checkedAt st)
         = ModelStore.isConfiguringModel st
      /\ ModelStore.isTestingModel (ModelStore.removeModel checkedAt st)
         = ModelStore.isTestingModel st
      /\ ModelStore.isReady
           (ModelStore.modelStatus (ModelStore.removeModel checkedAt st))
         = None
      /\ ModelStore.hasModel
           (ModelStore.modelStatus (ModelStore.removeModel checkedAt st))
         = false
      /\ forall tested' at',
          ModelStore.testModelConnection tested' at'
            (ModelStore.removeModel checkedAt st)
          = (ModelStore.removeModel checkedAt st,
             ModelStore.throws "Error: No model configured"))
  /\ (forall testedAt at' config,
        ModelStore.modelConfig
          (ModelStore.removeModel checkedAt
             (ModelStore.configureModel ModelStore.returns ModelStore.returns
                testedAt at' config st).1)
        = None).
Proof.
  cbv zeta. setoid_rewrite ready_isReady.
  split; [| split; [| split]].
  - intros Hm. unfold ModelStore.testModelConnection. by rewrite Hm.
  - intros m Hm. unfold ModelStore.testModelConnection. rewrite Hm.
    destruct tested as [| e]; simpl.
    + split; [done |]. split; [done |]. split; [done |]. split; [done |].
      split; [done |].
      unfold ModelStore.ready. simpl. split.
      * by intros (m' & [= <-] & Ha & _).
      * intros [_ Ha]. by exists m.
    + split; [done |]. split; [done |]. split; [done |]. split; [done |].
      split; [done |].
      unfold ModelStore.ready. simpl. split.
      * by intros (m' & _ & _ & ?).
      * by intros [? _].
  - done.
  - done.
Qed.

(** ** The further properties at concrete files *)




(** A drop on the enterprise zone whose [onFileUpload] throws: the status
    is set to complete, then back to idle, and the error toast is shown. *)
Lemma X5_throwing_upload_witness :
  EnterpriseUploadZone.effects
    (EnterpriseUploadZone.onDrop Reference.csv_platform now0 upload_throws
       [Reference.text_file "notes.csv" notes_csv_text])
  = (EnterpriseUploadZone.until_onFileUpload
       (Reference.text_file "notes.csv" notes_csv_text)
       notes_rows notes_metadata
     ++ [EnterpriseUploadZone.setProcessingStatus EnterpriseUploadZone.idle;
         EnterpriseUploadZone.toast_error_failed
           (EnterpriseUploadZone.threw "Error: boom")])%list.
Proof.
  destruct (X5_enterprise_drop_outcome Reference.csv_platform now0 upload_throws
              (Reference.text_file "notes.csv" notes_csv_text) []
              EnterpriseUploadZone.idle) as (_ & _ & _ & Hok & _).
  destruct (Hok notes_rows notes_metadata eq_refl) as (_ & _ & Hthrow & _).
  exact (Hthrow "Error: boom" eq_refl).
Defined.

Lemma X7_prompt_witness :
  exists rest,
    "users" +:+ EnterpriseUploadZone.requirements_separator +:+ " adults "
    = "users" +:+ rest.
Proof.
  apply (proj1 (X7_enhanced_prompt "users" " adults "
                  ("users" +:+ EnterpriseUploadZone.requirements_separator
                   +:+ " adults ")
                  (list_elem_of_here _ _))).
Defined.

Lemma X8_generator_number_witness :
  EnhancedDataGenerator.parseFile
    (Reference.platform Reference.no_workbook json_42 Reference.no_print)
    (Reference.text_file "n.json" "42")
  = Ok [JNum 42%float].
Proof.
  exact (proj1 (X8_generator_json
                  (Reference.platform Reference.no_workbook json_42
                                      Reference.no_print)
                  now0 (Reference.text_file "n.json" "42") "42"
                  eq_refl eq_refl) (JNum 42%float) eq_refl).
Defined.

Lemma X9_generator_workbook_witness :
  exists kept md,
    [JObj [("a", JNum 1%float)]] = JObj <$> kept
    /\ parseFile (Reference.platform blank_row_workbook Reference.no_json
                                     Reference.no_print)
                 now0 (Reference.text_file "book.xlsx" "")
       = Ok (JObj <$> List.filter clean_keep kept, md).
Proof.
  destruct (proj2 (X9_generator_xlsx
                     (Reference.platform blank_row_workbook Reference.no_json
                                         Reference.no_print)
                     now0 (Reference.text_file "book.xlsx" "")
                     (or_introl eq_refl))
                  [JObj [("a", JNum 1%float)]] eq_refl)
    as (kept & md & Hrs & Hres & _).
  exists kept, md. split; [exact Hrs | exact Hres].
Defined.

Lemma X11_one_row_witness :
  processFile (Reference.platform Reference.no_workbook one_row_json
                                  Reference.no_print)
              (Reference.text_file "rows.json" one_row_json_text)
  = succeeded (Reference.text_file "rows.json" one_row_json_text)
              [JObj [("a", JNum 1%float)]] ["a"].
Proof.
  destruct (X11_processFile_json_tables
              (Reference.platform Reference.no_workbook one_row_json
                                  Reference.no_print)
              (Reference.text_file "rows.json" one_row_json_text)
              one_row_json_text (JArr [JObj [("a", JNum 1%float)]])
              eq_refl eq_refl eq_refl) as (_ & Harr & _).
  destruct (Harr (JObj [("a", JNum 1%float)]) [] eq_refl) as (_ & _ & Hkeys).
  apply (Hkeys ["a"] eq_refl eq_refl). discriminate.
Defined.


Lemma X13_header_only_sheet_witness :
  processFile (Reference.platform blank_row_workbook Reference.no_json
                                  Reference.no_print)
              (Reference.text_file "book.xlsx" "")
  = failed (Reference.text_file "book.xlsx" "") "File contains no data"
  \/ processFile (Reference.platform blank_row_workbook Reference.no_json
                                     Reference.no_print)
                 (Reference.text_file "book.xlsx" "")
     = succeeded (Reference.text_file "book.xlsx" "")
                 [JObj [("a", JNum 1%float); ("b", JStr "")]] ["a"; "b"].
Proof.
  destruct (X13_xlsx_failures
              (Reference.platform blank_row_workbook Reference.no_json
                                  Reference.no_print)
              (Reference.text_file "book.xlsx" "") ""
              {| SheetNames := ["Sheet1"];
                 Sheets :=
                   [("Sheet1",
                     {| Reference.as_arrays :=
                          [ [JStr "a"; JStr "b"];
                            [JNum 1%float; JStr ""];
                            [JStr ""; JStr ""] ];
                        Reference.as_objects :=
                          [ [("a", JNum 1%float)];
                            [("a", JStr ""); ("b", JStr "")] ] |})] |}
              (or_introl eq_refl) eq_refl eq_refl) as [_ Hrows].
  destruct (Hrows [JStr "a"; JStr "b"]
                  [[JNum 1%float; JStr ""]; [JStr ""; JStr ""]] eq_refl)
    as (_ & _ & Hout).
  exact Hout.
Defined.

(** A CSV file with one row, a word and an address: the metadata counts
    one row and tags the two columns string and email. *)
Lemma X14_metadata_witness :
  parseFile Reference.csv_platform now0
            (Reference.text_file "notes.csv" notes_csv_text)
  = Ok (notes_rows, notes_metadata)
  /\ rows notes_metadata = length notes_rows
  /\ md_type notes_metadata = Some "csv"
  /\ uploadedAt notes_metadata = now0.
Proof.
  assert (parseFile Reference.csv_platform now0
                    (Reference.text_file "notes.csv" notes_csv_text)
          = Ok (notes_rows, notes_metadata)) as Hrun by reflexivity.
  destruct (X14_parseFile_metadata _ _ _ _ _ Hrun)
    as (Hrows & _ & _ & _ & Htype & _ & Hat & _).
  split; [exact Hrun |]. split; [exact Hrows |]. split; [exact Htype | exact Hat].
Defined.

Lemma X16_one_row_witness :
  exists md,
    parseFile (Reference.platform Reference.no_workbook one_row_json
                                  Reference.no_print)
              now0 (Reference.text_file "rows.json" one_row_json_text)
    = Ok ([JObj [("a", JNum 1%float)]], md).
Proof.
  destruct (X16_parseFile_json_tables
              (Reference.platform Reference.no_workbook one_row_json
                                  Reference.no_print)
              now0 (Reference.text_file "rows.json" one_row_json_text)
              one_row_json_text (JArr [JObj [("a", JNum 1%float)]])
              eq_refl eq_refl eq_refl) as (_ & Hok & _).
  apply Hok; discriminate.
Defined.

Lemma X17_unreadable_csv_witness :
  processFile Reference.csv_platform (unreadable_file "rows.csv" "NotReadableError")
  = failed (unreadable_file "rows.csv" "NotReadableError") "NotReadableError".
Proof.
  apply (proj1 (X17_unreadable_file Reference.csv_platform now0
                  (unreadable_file "rows.csv" "NotReadableError")
                  "NotReadableError" eq_refl) "csv" eq_refl).
  apply list_elem_of_here.
Defined.

Lemma X18_malformed_json_witness :
  processFile Reference.csv_platform (Reference.text_file "bad.json" "{")
  = failed (Reference.text_file "bad.json" "{") "Unexpected token".
Proof.
  exact (proj1 (X18_parser_errors Reference.csv_platform now0
                  (Reference.text_file "bad.json" "{") "{" eq_refl)
               "Unexpected token" eq_refl eq_refl).
Defined.

(** A header line alone, dropped on the enterprise zone with callbacks
    that return: [onFileUpload] is called with no row and the status ends
    at complete. *)
Lemma X19_header_only_completes_witness :
  exists kept md,
    parseFile Reference.csv_platform now0
              (Reference.text_file "empty.csv" header_only_csv_text)
    = Ok (JObj <$> kept, md)
    /\ kept = []
    /\ EnterpriseUploadZone.status_after EnterpriseUploadZone.idle
         (EnterpriseUploadZone.effects
            (EnterpriseUploadZone.onDrop Reference.csv_platform now0
               EnterpriseUploadZone.quiet
               [Reference.text_file "empty.csv" header_only_csv_text]))
       = EnterpriseUploadZone.complete.
Proof.
  destruct (X19_accepted_contents_complete Reference.csv_platform now0
              EnterpriseUploadZone.quiet
              (Reference.text_file "empty.csv" header_only_csv_text) []
              header_only_csv_text EnterpriseUploadZone.idle eq_refl
              (or_introl (conj eq_refl eq_refl)))
    as (kept & md & Hp & _ & _ & Hdone & _).
  exists kept, md. split; [exact Hp |]. split.
  - injection Hp as Hk _. by destruct kept.
  - apply Hdone. by split.
Defined.
